(** * check.py : a shallow embedding of the session-recovery inspector

    The script reads a mozlz4 file, strips the 12-byte header, decompresses
    the payload, parses it as JSON and prints a bounded summary of every
    window.  This file embeds lines 8 to 19 of [check.py]: the frame
    decoder, the values [json.loads] can return, the Python operations the
    script applies to them ([.get], subscription, slicing, truthiness,
    [len], iteration, [repr], [json.dumps(..., indent=2)]) and the reporter
    loops, with exceptions and printed output made explicit.

    What lies outside the script is an interface: [Runtime] for the
    arithmetic and rendering of floats and the Unicode table behind
    [str.isprintable], [Libraries] for the LZ4 block decompressor and the
    JSON parser.  Standard output is a UTF-8 stream with the strict error
    handler, so [print] raises on a text holding a lone surrogate.  Reading
    the file, a closed or failing output stream and the interpreter's
    resource limits (memory, recursion depth) are not modelled: the input
    is the bytes read, the output is the sequence of texts printed. *)

From Stdlib Require Import ZArith NArith Lia Bool Ascii String.
From Stdlib Require Import Strings.Byte.
From Stdlib Require Import DecimalString.
From Stdlib Require Import List.
Import ListNotations.

#[local] Set Warnings "-register-all".

Local Open Scope Z_scope.

(** ** Text *)

(** A Python [str] is a sequence of Unicode code points; slicing and [len]
    count code points, not bytes. *)
Definition codepoint := N.
Definition str := list codepoint.

(** [lit "abc"] is the [str] of an ASCII literal of the script. *)
Definition lit (s : string) : str := map N_of_ascii (list_ascii_of_string s).

(** Decimal rendering of an integer, as [format(i, '')] and [int.__repr__]
    give it. *)
Definition dec_nat (n : nat) : str := lit (NilZero.string_of_uint (Nat.to_uint n)).
Definition dec (z : Z) : str := lit (NilZero.string_of_int (Z.to_int z)).

Fixpoint str_eqb (a b : str) : bool :=
  match a, b with
  | [], [] => true
  | x :: a', y :: b' => N.eqb x y && str_eqb a' b'
  | _, _ => false
  end.

(** [s.startswith(p)], used only to tell the printed lines apart. *)
Fixpoint starts_with (p s : str) : bool :=
  match p, s with
  | [], _ => true
  | x :: p', y :: s' => N.eqb x y && starts_with p' s'
  | _ :: _, [] => false
  end.

(** Lower-case hexadecimal, zero padded to [w] digits (["%02x"], ["{:04x}"]). *)
Definition hex_digit (d : N) : codepoint :=
  (if d <? 10 then 48 + d else 87 + d)%N.

Fixpoint hex_fixed (w : nat) (n : N) : str :=
  match w with
  | O => []
  | S w' => hex_fixed w' (N.shiftr n 4) ++ [hex_digit (N.land n 15)]
  end.

(** [sep.join(parts)] *)
Fixpoint join (sep : str) (parts : list str) : str :=
  match parts with
  | [] => []
  | [p] => p
  | p :: rest => p ++ sep ++ join sep rest
  end.

(** ** Exceptions and results *)

Inductive exn : Type :=
| KeyError
| IndexError
| TypeError
| AttributeError
| ValueError
| OverflowError
| MemoryError
| LZ4BlockError
| UnicodeEncodeError.

(** An expression either raises or yields a value. *)
Definition result (A : Type) : Type := (exn + A)%type.

Definition ok {A} (a : A) : result A := inr a.
Definition raise {A} (e : exn) : result A := inl e.

Definition rbind {A B} (r : result A) (k : A -> result B) : result B :=
  match r with
  | inl e => inl e
  | inr a => k a
  end.

Declare Scope result_scope.
Delimit Scope result_scope with result.
Notation "x <-- r ;; k" := (rbind r (fun x => k))
  (at level 61, r at next level, right associativity) : result_scope.

(** Standard output is a UTF-8 text stream with the strict error handler,
    Python's default for a terminal: it encodes every code point except a
    lone surrogate (U+D800 to U+DFFF), which a JSON escape such as
    [\ud800] leaves in a parsed string. *)
Definition is_surrogate (c : codepoint) : bool := (55296 <=? c)%N && (c <=? 57343)%N.
Definition stdout_encodes (c : codepoint) : bool := negb (is_surrogate c).
Definition stdout_accepts (s : str) : bool := forallb stdout_encodes s.

(** A statement prints some lines and then either raises or completes:
    what was printed before an uncaught exception stays printed.  One
    element of the output is the text of one [print] call. *)
Definition Py (A : Type) : Type := (list str * result A)%type.

Definition pure {A} (a : A) : Py A := ([], inr a).

(** [print(s)]: the text is encoded as a whole before any of it is
    written, so a text the stream cannot encode raises UnicodeEncodeError
    and adds nothing to the output. *)
Definition print (s : str) : Py unit :=
  if stdout_accepts s then ([s], inr tt) else ([], inl UnicodeEncodeError).
Definition lift {A} (r : result A) : Py A := ([], r).

Definition bind {A B} (m : Py A) (k : A -> Py B) : Py B :=
  match m with
  | (out, inl e) => (out, inl e)
  | (out, inr a) => let (out', r) := k a in (out ++ out', r)
  end.

Declare Scope py_scope.
Delimit Scope py_scope with py.
Notation "x <- m ;; k" := (bind m (fun x => k))
  (at level 61, m at next level, right associativity) : py_scope.
Notation "m ;; k" := (bind m (fun _ => k))
  (at level 61, right associativity) : py_scope.

Definition output {A} (m : Py A) : list str := fst m.
Definition raised {A} (m : Py A) : option exn :=
  match snd m with inl e => Some e | inr _ => None end.

(** [for i, x in enumerate(xs, start): body(i, x)] *)
Fixpoint for_enumerate {A} (body : nat -> A -> Py unit) (start : nat) (xs : list A)
  : Py unit :=
  match xs with
  | [] => pure tt
  | x :: rest => bind (body start x) (fun _ => for_enumerate body (S start) rest)
  end.

(** [list(enumerate(xs, start))] *)
Fixpoint enumerate {A} (start : nat) (xs : list A) : list (nat * A) :=
  match xs with
  | [] => []
  | x :: rest => (start, x) :: enumerate (S start) rest
  end.

(** ** Bytes *)

Definition bytes := list byte.

(** [data[lo:hi]] and, with [hi = None], [data[lo:]], for non-negative
    constant bounds.  Python clamps slice bounds to the length: the
    expression yields a (possibly empty) bytes object and never raises. *)
Definition bytes_slice (lo : nat) (hi : option nat) (data : bytes) : result bytes :=
  match hi with
  | None => ok (skipn lo data)
  | Some h => ok (firstn (h - lo) (skipn lo data))
  end.

(** [int.from_bytes(b, 'little')] *)
Fixpoint int_from_bytes_little (b : bytes) : Z :=
  match b with
  | [] => 0
  | x :: rest => Z.of_N (Byte.to_N x) + 256 * int_from_bytes_little rest
  end.

(** ** The runtime outside the script *)

(** Floats are kept abstract: the script never computes with one, it only
    tests, shifts by an integer and prints them.  [isprintable] is
    [str.isprintable] on a non-ASCII code point (the Unicode database).
    [dict_slice_exn] is what [d[:n]] raises on a dict: TypeError
    (unhashable slice) up to Python 3.11, KeyError from 3.12 on, where
    slices hash. *)
Class Runtime : Type := {
  float : Type;
  float_truth : float -> bool;          (* bool(x) *)
  float_sub_int : float -> Z -> float;  (* x - n *)
  float_repr : float -> str;            (* repr(x) *)
  float_json : float -> str;            (* json.encoder.floatstr *)
  isprintable : codepoint -> bool;
  dict_slice_exn : exn;
  (* a printable code point is never a surrogate; the texts of floats are
     made of ASCII digits, signs and letters *)
  isprintable_encodes : forall c, isprintable c = true -> stdout_encodes c = true;
  float_repr_encodes : forall f, stdout_accepts (float_repr f) = true;
  float_json_encodes : forall f, stdout_accepts (float_json f) = true
}.

(** ** Values, Python operations and the script *)

Section Script.

Context {RT : Runtime}.

(** The values [json.loads] builds.  A dict keeps its items in insertion
    order, each key once. *)
Inductive value : Type :=
| VNone
| VBool (b : bool)
| VInt (z : Z)
| VFloat (f : float)
| VStr (s : str)
| VList (items : list value)
| VDict (items : list (str * value)).

(** The two library calls at the head of the pipeline. *)
Class Libraries : Type := {
  lz4_block_decompress : bytes -> Z -> result bytes;
  json_loads : bytes -> result value
}.

Context {LIB : Libraries}.

Local Open Scope result_scope.

(** *** dict, list and str primitives *)

Fixpoint lookup (key : str) (d : list (str * value)) : option value :=
  match d with
  | [] => None
  | (k, v) :: rest => if str_eqb key k then Some v else lookup key rest
  end.

(** [obj.get(key, default)]; only a dict has the method. *)
Definition dict_get (d : list (str * value)) (key : str) (default : value) : value :=
  match lookup key d with
  | Some v => v
  | None => default
  end.

Definition py_get (obj : value) (key : str) (default : value) : result value :=
  match obj with
  | VDict d => ok (dict_get d key default)
  | _ => raise AttributeError
  end.

(** Truth value, as the conditional expression tests it. *)
Definition truthy (v : value) : bool :=
  match v with
  | VNone => false
  | VBool b => b
  | VInt z => negb (z =? 0)
  | VFloat f => float_truth f
  | VStr s => negb (Nat.eqb (length s) 0)
  | VList l => negb (Nat.eqb (length l) 0)
  | VDict d => negb (Nat.eqb (length d) 0)
  end.

(** [v - n] for an integer literal [n]. *)
Definition py_sub_int (v : value) (n : Z) : result value :=
  match v with
  | VInt a => ok (VInt (a - n))
  | VBool b => ok (VInt ((if b then 1 else 0) - n))
  | VFloat f => ok (VFloat (float_sub_int f n))
  | _ => raise TypeError
  end.

(** Sequence indexing: a negative index counts from the end, anything
    outside [-len, len) raises IndexError. *)
Definition seq_index {A} (l : list A) (k : Z) : result A :=
  let n := Z.of_nat (length l) in
  let k' := if k <? 0 then k + n else k in
  if (k' <? 0) || (n <=? k') then raise IndexError
  else match nth_error l (Z.to_nat k') with
       | Some x => ok x
       | None => raise IndexError
       end.

(** [operator.index]: ints and bools index a sequence. *)
Definition as_index (key : value) : option Z :=
  match key with
  | VInt z => Some z
  | VBool b => Some (if b then 1 else 0)
  | _ => None
  end.

(** [obj[key]] *)
Definition py_getitem (obj key : value) : result value :=
  match obj with
  | VList l =>
      match as_index key with
      | Some k => seq_index l k
      | None => raise TypeError
      end
  | VStr s =>
      match as_index key with
      | Some k => c <-- seq_index s k ;; ok (VStr [c])
      | None => raise TypeError
      end
  | VDict d =>
      match key with
      | VStr k => match lookup k d with Some v => ok v | None => raise KeyError end
      | VList _ | VDict _ => raise TypeError
      | _ => raise KeyError
      end
  | _ => raise TypeError
  end.

(** [obj[:n]] *)
Definition py_slice_to (n : nat) (obj : value) : result value :=
  match obj with
  | VList l => ok (VList (firstn n l))
  | VStr s => ok (VStr (firstn n s))
  | VDict _ => raise dict_slice_exn
  | _ => raise TypeError
  end.

(** [len(obj)] *)
Definition py_len (obj : value) : result nat :=
  match obj with
  | VList l => ok (length l)
  | VStr s => ok (length s)
  | VDict d => ok (length d)
  | _ => raise TypeError
  end.

(** The items a [for] loop draws from [obj]. *)
Definition py_iter (obj : value) : result (list value) :=
  match obj with
  | VList l => ok l
  | VStr s => ok (map (fun c => VStr [c]) s)
  | VDict d => ok (map (fun kv => VStr (fst kv)) d)
  | _ => raise TypeError
  end.

(** *** repr *)

Definition squote : codepoint := 39%N.
Definition dquote : codepoint := 34%N.
Definition backslash : codepoint := 92%N.

Definition has_char (c : codepoint) (s : str) : bool := existsb (N.eqb c) s.

(** One character of [repr(s)] for a str, with [quote] the chosen quote. *)
Definition repr_char (quote c : codepoint) : str :=
  if (c =? quote)%N || (c =? backslash)%N then [backslash; c]
  else if (c =? 9)%N then lit "\t"
  else if (c =? 10)%N then lit "\n"
  else if (c =? 13)%N then lit "\r"
  else if (c <? 32)%N || (c =? 127)%N then lit "\x" ++ hex_fixed 2 c
  else if (c <? 127)%N then [c]
  else if isprintable c then [c]
  else if (c <=? 255)%N then lit "\x" ++ hex_fixed 2 c
  else if (c <=? 65535)%N then lit "\u" ++ hex_fixed 4 c
  else lit "\U" ++ hex_fixed 8 c.

(** [repr(s)]: single quotes, unless the text has a single quote and no
    double quote. *)
Definition repr_str (s : str) : str :=
  let quote := if has_char squote s && negb (has_char dquote s) then dquote else squote in
  [quote] ++ flat_map (repr_char quote) s ++ [quote].

Fixpoint repr (v : value) : str :=
  match v with
  | VNone => lit "None"
  | VBool true => lit "True"
  | VBool false => lit "False"
  | VInt z => dec z
  | VFloat f => float_repr f
  | VStr s => repr_str s
  | VList l => lit "[" ++ join (lit ", ") (map repr l) ++ lit "]"
  | VDict d =>
      lit "{"
      ++ join (lit ", ") (map (fun kv : str * value => let (k, x) := kv in repr_str k ++ lit ": " ++ repr x) d)
      ++ lit "}"
  end.

(** [format(v, '')], what an f-string field without conversion inserts. *)
Definition py_format (v : value) : str :=
  match v with
  | VStr s => s
  | _ => repr v
  end.

(** *** json.dumps(obj, indent=2) *)

(** [json.encoder.py_encode_basestring_ascii], character by character. *)
Definition json_escape_char (c : codepoint) : str :=
  if (c =? dquote)%N then [backslash; dquote]
  else if (c =? backslash)%N then [backslash; backslash]
  else if (c =? 10)%N then lit "\n"
  else if (c =? 13)%N then lit "\r"
  else if (c =? 9)%N then lit "\t"
  else if (c =? 12)%N then lit "\f"
  else if (c =? 8)%N then lit "\b"
  else if (32 <=? c)%N && (c <=? 126)%N then [c]
  else if (c <? 65536)%N then lit "\u" ++ hex_fixed 4 c
  else
    let n := (c - 65536)%N in
    let s1 := N.lor 55296 (N.land (N.shiftr n 10) 1023) in
    let s2 := N.lor 56320 (N.land n 1023) in
    lit "\u" ++ hex_fixed 4 s1 ++ lit "\u" ++ hex_fixed 4 s2.

Definition json_str (s : str) : str :=
  [dquote] ++ flat_map json_escape_char s ++ [dquote].

(** A line break followed by the indentation of nesting depth [level]. *)
Definition newline_indent (level : nat) : str :=
  10%N :: repeat 32%N (2 * level).

Fixpoint json_encode (level : nat) (v : value) : str :=
  match v with
  | VNone => lit "null"
  | VBool true => lit "true"
  | VBool false => lit "false"
  | VInt z => dec z
  | VFloat f => float_json f
  | VStr s => json_str s
  | VList [] => lit "[]"
  | VList l =>
      lit "[" ++ newline_indent (S level)
      ++ join (lit "," ++ newline_indent (S level)) (map (json_encode (S level)) l)
      ++ newline_indent level ++ lit "]"
  | VDict [] => lit "{}"
  | VDict d =>
      lit "{" ++ newline_indent (S level)
      ++ join (lit "," ++ newline_indent (S level))
           (map (fun kv : str * value => let (k, x) := kv in
                           json_str k ++ lit ": " ++ json_encode (S level) x) d)
      ++ newline_indent level ++ lit "}"
  end.

Definition json_dumps_indent2 (v : value) : str := json_encode 0 v.

(** *** The script *)

(** Line 8: [lz4.block.decompress(data[12:],
    uncompressed_size=int.from_bytes(data[8:12], 'little'))].  The two
    arguments are evaluated first, then the decompressor is called. *)
Definition frame_header (data : bytes) : result (bytes * Z) :=
  body <-- bytes_slice 12 None data ;;
  size <-- bytes_slice 8 (Some 12%nat) data ;;
  ok (body, int_from_bytes_little size).

Definition frame_decode (data : bytes) : result bytes :=
  header <-- frame_header data ;;
  lz4_block_decompress (fst header) (snd header).

(** Line 17: [tab['entries'][tab['index']-1] if tab.get('entries') else {}].
    The condition is evaluated first; in the taken branch the container,
    then the index expression, then the subscription. *)
Definition active_entry (tab : value) : result value :=
  cond <-- py_get tab (lit "entries") VNone ;;
  if truthy cond then
    entries <-- py_getitem tab (VStr (lit "entries")) ;;
    index <-- py_getitem tab (VStr (lit "index")) ;;
    k <-- py_sub_int index 1 ;;
    py_getitem entries k
  else ok (VDict []).

(** Line 18, the two replacement fields of the f-string:
    [{tab.get("group", "MISSING")!r}] and [{entry.get("url", "")[:80]}]. *)
Definition group_field (tab : value) : result str :=
  g <-- py_get tab (lit "group") (VStr (lit "MISSING")) ;;
  ok (repr g).

Definition url_field (entry : value) : result str :=
  u <-- py_get entry (lit "url") (VStr []) ;;
  u80 <-- py_slice_to 80 u ;;
  ok (py_format u80).

Definition tab_text (j : nat) (g u : str) : str :=
  lit "Tab " ++ dec_nat j ++ lit ": group=" ++ g ++ lit ", url=" ++ u.

Definition tab_line (j : nat) (tab entry : value) : result str :=
  g <-- group_field tab ;;
  u <-- url_field entry ;;
  ok (tab_text j g u).

(** The value whose [repr] line 18 prints for a dict tab. *)
Definition group_or_missing (d : list (str * value)) : value :=
  dict_get d (lit "group") (VStr (lit "MISSING")).

Local Open Scope py_scope.

(** Lines 17 and 18: the body of the tab loop. *)
Definition report_tab (j : nat) (tab : value) : Py unit :=
  entry <- lift (active_entry tab) ;;
  text <- lift (tab_line j tab entry) ;;
  print text.

(** Lines 13 to 19: the body of the window loop. *)
Definition window_header (i : nat) : str := lit "=== Window " ++ dec_nat i ++ lit " ===".
Definition groups_line (groups : value) : str :=
  lit "Groups: " ++ firstn 2000 (json_dumps_indent2 groups).
Definition total_line (n : nat) : str := lit "... total " ++ dec_nat n ++ lit " tabs".

Definition report_window (i : nat) (win : value) : Py unit :=
  print (window_header i) ;;
  groups <- lift (py_get win (lit "groups") (VList [])) ;;
  print (groups_line groups) ;;
  print [] ;;
  tabs <- lift (py_get win (lit "tabs") (VList [])) ;;
  first5 <- lift (py_slice_to 5 tabs) ;;
  shown <- lift (py_iter first5) ;;
  for_enumerate report_tab 0 shown ;;
  tabs' <- lift (py_get win (lit "tabs") (VList [])) ;;
  n <- lift (py_len tabs') ;;
  print (total_line n).

(** Lines 12 to 19. *)
Definition report (session : value) : Py unit :=
  windows <- lift (py_get session (lit "windows") (VList [])) ;;
  wins <- lift (py_iter windows) ;;
  for_enumerate report_window 0 wins.

(** Lines 8 to 19 on the bytes read from the file. *)
Definition script (data : bytes) : Py unit :=
  raw <- lift (frame_decode data) ;;
  session <- lift (json_loads raw) ;;
  report session.

(** *** Vocabulary of the statements *)

(** A tab that lines 17 and 18 handle without raising. *)
Definition tab_completes (tab : value) : Prop := raised (report_tab 0 tab) = None.

(** A line that line 18 can print. *)
Definition is_tab_text (line : str) : Prop := exists j g u, line = tab_text j g u.

(** The lines a window prints when nothing raises: delimiter, groups,
    blank separator, tab lines, total. *)
Definition window_block (i : nat) (groups : value) (tab_lines : list str) (total : nat)
  : list str :=
  window_header i :: groups_line groups :: [] :: tab_lines ++ [total_line total].

(** The data model of the specification, as boolean checks: an entry is a
    mapping whose [url], if present, is a string whose first 80 characters
    standard output can encode (no lone surrogate); a tab is a mapping whose
    [entries] is absent, empty, or a list of entries with
    [1 <= index <= len(entries)]; a window is a mapping whose [tabs] is
    absent or a list of tabs; a session is a mapping whose [windows] is
    absent or a list of windows. *)
Definition entry_conforms (entry : value) : bool :=
  match entry with
  | VDict e =>
      match lookup (lit "url") e with
      | None => true
      | Some (VStr u) => stdout_accepts (firstn 80 u)
      | Some _ => false
      end
  | _ => false
  end.

Definition tab_conforms (tab : value) : bool :=
  match tab with
  | VDict d =>
      match lookup (lit "entries") d with
      | None | Some (VList []) => true
      | Some (VList es) =>
          match lookup (lit "index") d with
          | Some (VInt n) =>
              (1 <=? n) && (n <=? Z.of_nat (length es)) && forallb entry_conforms es
          | _ => false
          end
      | Some _ => false
      end
  | _ => false
  end.

Definition window_conforms (win : value) : bool :=
  match win with
  | VDict d =>
      match lookup (lit "tabs") d with
      | None => true
      | Some (VList ts) => forallb tab_conforms ts
      | Some _ => false
      end
  | _ => false
  end.

Definition session_conforms (session : value) : bool :=
  match session with
  | VDict d =>
      match lookup (lit "windows") d with
      | None => true
      | Some (VList ws) => forallb window_conforms ws
      | Some _ => false
      end
  | _ => false
  end.

(** Lines 16 to 19, the part of the window body that depends on [tabs]. *)
Definition report_tabs (tabs : value) : Py unit :=
  first5 <- lift (py_slice_to 5 tabs) ;;
  shown <- lift (py_iter first5) ;;
  for_enumerate report_tab 0 shown ;;
  n <- lift (py_len tabs) ;;
  print (total_line n).

(** The size field of the frame: four bytes, least significant first. *)
Definition size_field (b0 b1 b2 b3 : byte) : Z :=
  Z.of_N (Byte.to_N b0) + 256 * Z.of_N (Byte.to_N b1)
  + 65536 * Z.of_N (Byte.to_N b2) + 16777216 * Z.of_N (Byte.to_N b3).

(** What lines 16 to 19 raise when [tabs] is neither a list nor the empty
    string. *)
Definition odd_tabs_exn (tabs : value) : exn :=
  match tabs with
  | VDict _ => dict_slice_exn
  | VStr _ => AttributeError
  | _ => TypeError
  end.

(** Kinds of value the script tells apart: what has [.get], what can be
    subscripted and iterated, what can index a sequence. *)
Definition is_dict (v : value) : bool :=
  match v with VDict _ => true | _ => false end.

Definition is_container (v : value) : bool :=
  match v with VStr _ | VList _ | VDict _ => true | _ => false end.

Definition is_int_like (v : value) : bool :=
  match v with VInt _ | VBool _ => true | _ => false end.

Definition is_number (v : value) : bool :=
  match v with VInt _ | VBool _ | VFloat _ => true | _ => false end.

(** The five kinds of line the reporter prints. *)
Definition is_report_line (line : str) : Prop :=
  (exists i, line = window_header i)
  \/ (exists groups, line = groups_line groups)
  \/ line = []
  \/ is_tab_text line
  \/ (exists n, line = total_line n).

(** What line 17 raises, for an integer [index], when [entries] is truthy
    but not a list. *)
Definition odd_entries_exn (entries : value) (n : Z) : exn :=
  match entries with
  | VDict _ => KeyError
  | VStr s =>
      if (n - 1 <? - Z.of_nat (length s)) || (Z.of_nat (length s) <=? n - 1)
      then IndexError else AttributeError
  | _ => TypeError
  end.

End Script.

(** ** Concrete runs *)

(** A runtime for documents without floats. *)
Definition plain_runtime : Runtime := {|
  float := Empty_set;
  float_truth := fun f => match f with end;
  float_sub_int := fun f _ => f;
  float_repr := fun f => match f with end;
  float_json := fun f => match f with end;
  isprintable := stdout_encodes;
  dict_slice_exn := TypeError;
  isprintable_encodes := fun _ H => H;
  float_repr_encodes := fun f => match f with end;
  float_json_encodes := fun f => match f with end
|}.

Definition doc : Type := @value plain_runtime.

(** Libraries that hand the payload through and parse it to a fixed
    document. *)
Definition stored_libraries (session : doc) : @Libraries plain_runtime := {|
  lz4_block_decompress := fun body _ => ok body;
  json_loads := fun _ => ok session
|}.

Definition items : Type := list (str * doc).

Definition entry_a : doc := VDict [(lit "url", VStr (lit "https://a.example/"))].
Definition entry_b : doc := VDict [(lit "url", VStr (lit "https://b.example/"))].
Definition history : list doc := [entry_a; entry_b].

(** [{"entries": [a, b], "index": n}] *)
Definition tab_at_items (n : Z) : items :=
  [(lit "entries", VList history); (lit "index", VInt n)].
Definition tab_at (n : Z) : doc := VDict (tab_at_items n).

(** [{"entries": [a, b]}] *)
Definition tab_no_index_items : items := [(lit "entries", VList history)].
Definition tab_no_index : doc := VDict tab_no_index_items.

(** [{"entries": [], "index": 7, "group": 3}] *)
Definition tab_empty_entries_items : items :=
  [(lit "entries", VList []); (lit "index", VInt 7); (lit "group", VInt 3)].
Definition tab_empty_entries : doc := VDict tab_empty_entries_items.

(** [{"entries": [{"url": "https://example.com/" + "x"*100}], "index": 1}] *)
Definition long_url : str := lit "https://example.com/" ++ repeat 120%N 100.
Definition long_url_entry_items : items := [(lit "url", VStr long_url)].
Definition tab_long_url_items : items :=
  [(lit "entries", VList [VDict long_url_entry_items]); (lit "index", VInt 1)].
Definition tab_long_url : doc := VDict tab_long_url_items.

(** [{"entries": [{"url": "https://a.example/\ud800"}], "index": 1}]: the
    url ends in a lone surrogate, which [json.loads] keeps. *)
Definition surrogate_url : str := lit "https://a.example/" ++ [55296%N].
Definition surrogate_url_entry_items : items := [(lit "url", VStr surrogate_url)].
Definition tab_surrogate_url_items : items :=
  [(lit "entries", VList [VDict surrogate_url_entry_items]); (lit "index", VInt 1)].

(** [{"groups": [1234567, ..., 1234567]}]: 300 items, rendered on 302 lines
    and 3302 characters. *)
Definition many_groups : list doc := repeat (VInt 1234567) 300.
Definition window_many_groups_items : items := [(lit "groups", VList many_groups)].

(** [{"tabs": [t, t, t, t, t, t, t]}]: seven tabs. *)
Definition seven_tabs : list doc := repeat (tab_at 2) 7.
Definition window_seven_items : items := [(lit "tabs", VList seven_tabs)].
Definition window_seven : doc := VDict window_seven_items.

(** [{"tabs": [{"entries": [a, b], "index": 5}]}]: the only tab points
    past the end of its history. *)
Definition window_bad_tab : doc := VDict [(lit "tabs", VList [tab_at 5])].

(** [{"windows": [bad, {}]}] and [{"windows": [seven, {}]}] *)
Definition windows_bad : list doc := [window_bad_tab; VDict []].
Definition windows_good : list doc := [window_seven; VDict []].
Definition session_bad : doc := VDict [(lit "windows", VList windows_bad)].
Definition session_good_items : items := [(lit "windows", VList windows_good)].
Definition session_good : doc := VDict session_good_items.

(** [{}]: a session without windows. *)
Definition session_empty : doc := VDict [].

(** [{"entries": 0, "index": 1, "group": null}]: falsy [entries], null
    [group]. *)
Definition tab_zero_entries_items : items :=
  [(lit "entries", VInt 0); (lit "index", VInt 1); (lit "group", VNone)].

(** [{"entries": [{"title": "t"}], "index": 1}]: the entry has no url. *)
Definition no_url_entry_items : items := [(lit "title", VStr (lit "t"))].
Definition tab_no_url_items : items :=
  [(lit "entries", VList [VDict no_url_entry_items]); (lit "index", VInt 1)].

(** [{"entries": [{"url": 7}], "index": 1}]: the url is a number. *)
Definition number_url_entry_items : items := [(lit "url", VInt 7)].
Definition tab_number_url_items : items :=
  [(lit "entries", VList [VDict number_url_entry_items]); (lit "index", VInt 1)].

(** [{"entries": [a, b], "index": "1"}] and [{"entries": [a, b], "index": true}] *)
Definition tab_text_index_items : items :=
  [(lit "entries", VList history); (lit "index", VStr (lit "1"))].
Definition tab_true_index_items : items :=
  [(lit "entries", VList history); (lit "index", VBool true)].

(** [{"entries": "ab", "index": 1}]: [entries] is a string. *)
Definition tab_text_entries_items : items :=
  [(lit "entries", VStr (lit "ab")); (lit "index", VInt 1)].

(** [{"tabs": [t2, t2, t5, t2]}]: the third tab points past its history. *)
Definition mixed_tabs : list doc := [tab_at 2; tab_at 2; tab_at 5; tab_at 2].
Definition window_mixed_items : items := [(lit "tabs", VList mixed_tabs)].

(** Windows that agree on their first five tabs and on the tab count. *)
Definition window_seven_a_items : items :=
  [(lit "tabs", VList (repeat (tab_at 2) 5 ++ [tab_at 5; VNone]))].
Definition window_seven_b_items : items :=
  [(lit "title", VStr (lit "w")); (lit "tabs", VList (repeat (tab_at 2) 5 ++ [VInt 1; tab_at 1]))].

(** [{"tabs": 3}] and [{"windows": [seven, bad, {}]}] *)
Definition window_number_tabs_items : items := [(lit "tabs", VInt 3)].
Definition windows_late_failure : list doc := [window_seven; window_bad_tab; VDict []].
Definition session_late_failure_items : items := [(lit "windows", VList windows_late_failure)].

(** A frame with magic [mozLz40\0], declared size [0x01020304] and a
    three-byte payload. *)
Definition frame_magic : bytes := [x6d; x6f; x7a; x4c; x7a; x34; x30; x00].
Definition frame_full : bytes := frame_magic ++ [x04; x03; x02; x01] ++ [x10; x20; x30].

(** Libraries whose decompressor rejects every payload, and whose parser
    rejects every text. *)
Definition failing_decompressor : @Libraries plain_runtime := {|
  lz4_block_decompress := fun _ _ => raise LZ4BlockError;
  json_loads := fun _ => ok (VDict [])
|}.
Definition failing_parser : @Libraries plain_runtime := {|
  lz4_block_decompress := fun body _ => ok body;
  json_loads := fun _ => raise ValueError
|}.

(** A ten-byte buffer: eight bytes of magic and half a size field. *)
Definition frame_short : bytes := repeat x00 8 ++ [x05; x01].

(** Twelve-byte frames that differ in the magic only. *)
Definition frame_a : bytes := repeat x00 8 ++ [x02; x00; x00; x00].
Definition frame_b : bytes := repeat xff 8 ++ [x02; x00; x00; x00].

(** The printed lines are told apart by how they start. *)
Definition is_window_header (line : str) : bool := starts_with (lit "=== Window ") line.
Definition is_tab_line (line : str) : bool := starts_with (lit "Tab ") line.
Definition is_total_line (line : str) : bool := starts_with (lit "... total ") line.

(** ** Properties *)

Section Properties.

Context {RT : Runtime} {LIB : Libraries}.

Local Open Scope result_scope.

(** *** Texts that standard output accepts *)

Lemma value_nested_ind (P : value -> Prop) :
  P VNone ->
  (forall b, P (VBool b)) ->
  (forall z, P (VInt z)) ->
  (forall f, P (VFloat f)) ->
  (forall s, P (VStr s)) ->
  (forall l, Forall P l -> P (VList l)) ->
  (forall d, Forall (fun kv => P (snd kv)) d -> P (VDict d)) ->
  forall v, P v.
Proof.
  intros HNone HBool HInt HFloat HStr HList HDict.
  fix self 1.
  intros [|b|z|f|s|l|d].
  - exact HNone.
  - apply HBool.
  - apply HInt.
  - apply HFloat.
  - apply HStr.
  - apply HList.
    induction l as [|x rest IH]; constructor; [apply self|exact IH].
  - apply HDict.
    induction d as [|[k x] rest IH]; constructor; [apply self|exact IH].
Qed.

Lemma encodes_below (c : codepoint) :
  (c < 55296)%N -> stdout_encodes c = true.
Proof.
  intros Hc. unfold stdout_encodes, is_surrogate.
  destruct (N.leb_spec 55296 c) as [?|_]; [lia|reflexivity].
Qed.

Lemma accepts_app (a b : str) :
  stdout_accepts (a ++ b) = stdout_accepts a && stdout_accepts b.
Proof. apply forallb_app. Qed.

Lemma accepts_all_below (s : str) :
  Forall (fun c => (c < 55296)%N) s -> stdout_accepts s = true.
Proof.
  induction 1 as [|c rest Hc _ IH]; [reflexivity|].
  cbn [stdout_accepts forallb]. rewrite (encodes_below c Hc). exact IH.
Qed.

Lemma accepts_lit (text : string) : stdout_accepts (lit text) = true.
Proof.
  apply accepts_all_below. unfold lit.
  induction text as [|a rest IH]; [constructor|].
  cbn [list_ascii_of_string map]. constructor; [|exact IH].
  pose proof (N_ascii_bounded a). lia.
Qed.

Lemma accepts_dec_nat (n : nat) : stdout_accepts (dec_nat n) = true.
Proof. apply accepts_lit. Qed.

Lemma accepts_dec (z : Z) : stdout_accepts (dec z) = true.
Proof. apply accepts_lit. Qed.

Lemma accepts_hex_fixed (w : nat) :
  forall n, stdout_accepts (hex_fixed w n) = true.
Proof.
  induction w as [|w IH]; intros n; [reflexivity|].
  cbn [hex_fixed]. rewrite accepts_app, IH.
  cbn [stdout_accepts forallb andb].
  rewrite encodes_below; [reflexivity|].
  assert (Hd : (N.land n 15 < 16)%N).
  { change 15%N with (N.ones 4). rewrite N.land_ones. apply N.mod_lt. discriminate. }
  unfold hex_digit. destruct (N.ltb_spec (N.land n 15) 10); lia.
Qed.

Lemma accepts_join (sep : str) (parts : list str) :
  stdout_accepts sep = true ->
  Forall (fun part => stdout_accepts part = true) parts ->
  stdout_accepts (join sep parts) = true.
Proof.
  intros Hsep.
  induction 1 as [|part rest Hpart Hrest IH]; [reflexivity|].
  destruct rest as [|next rest]; [exact Hpart|].
  change (join sep (part :: next :: rest)) with (part ++ sep ++ join sep (next :: rest)).
  rewrite !accepts_app, Hpart, Hsep, IH. reflexivity.
Qed.

Lemma accepts_flat_map {A} (f : A -> str) (l : list A) :
  (forall x, stdout_accepts (f x) = true) ->
  stdout_accepts (flat_map f l) = true.
Proof.
  intros Hf. induction l as [|x rest IH]; [reflexivity|].
  cbn [flat_map]. rewrite accepts_app, Hf, IH. reflexivity.
Qed.

Lemma accepts_firstn (n : nat) (s : str) :
  stdout_accepts s = true -> stdout_accepts (firstn n s) = true.
Proof.
  intros Hs. unfold stdout_accepts in *.
  rewrite forallb_forall in *. intros c Hc. apply Hs.
  rewrite <- (firstn_skipn n s). apply in_or_app. left. exact Hc.
Qed.

Lemma accepts_json_escape_char (c : codepoint) :
  stdout_accepts (json_escape_char c) = true.
Proof.
  unfold json_escape_char.
  repeat match goal with
         | |- context [if ?b then _ else _] => destruct b eqn:?
         end;
    rewrite ?accepts_app, ?accepts_lit, ?accepts_hex_fixed; try reflexivity.
  cbn [stdout_accepts forallb andb]. rewrite encodes_below; [reflexivity|].
  match goal with
  | H : (_ && _)%bool = true |- _ =>
      apply andb_true_iff in H; destruct H as (_ & H); apply N.leb_le in H; lia
  end.
Qed.

Lemma accepts_json_str (s : str) : stdout_accepts (json_str s) = true.
Proof.
  unfold json_str.
  rewrite !accepts_app, (accepts_flat_map _ _ accepts_json_escape_char).
  reflexivity.
Qed.

Lemma accepts_newline_indent (level : nat) :
  stdout_accepts (newline_indent level) = true.
Proof.
  apply accepts_all_below. unfold newline_indent.
  constructor; [lia|].
  induction (2 * level)%nat as [|n IH]; constructor; [lia|exact IH].
Qed.

Lemma accepts_json_encode (v : value) :
  forall level, stdout_accepts (json_encode level v) = true.
Proof.
  induction v as [|b|z|f|s|l IH|d IH] using value_nested_ind; intros level.
  - reflexivity.
  - destruct b; reflexivity.
  - apply accepts_dec.
  - apply float_json_encodes.
  - apply accepts_json_str.
  - destruct l as [|x rest]; [reflexivity|].
    cbn [json_encode].
    rewrite !accepts_app, !accepts_newline_indent, !accepts_lit.
    rewrite accepts_join; [reflexivity| |].
    + rewrite accepts_app, accepts_lit, accepts_newline_indent. reflexivity.
    + apply Forall_map. eapply Forall_impl; [|exact IH].
      intros y Hy. apply Hy.
  - destruct d as [|kv rest]; [reflexivity|].
    cbn [json_encode].
    rewrite !accepts_app, !accepts_newline_indent, !accepts_lit.
    rewrite accepts_join; [reflexivity| |].
    + rewrite accepts_app, accepts_lit, accepts_newline_indent. reflexivity.
    + apply Forall_map. eapply Forall_impl; [|exact IH].
      intros [k y] Hy. cbn [snd] in Hy.
      rewrite !accepts_app, accepts_json_str, accepts_lit, Hy. reflexivity.
Qed.

Lemma accepts_repr_char (quote c : codepoint) :
  (quote < 55296)%N -> stdout_accepts (repr_char quote c) = true.
Proof.
  intros Hquote. unfold repr_char.
  destruct ((c =? quote)%N || (c =? backslash)%N) eqn:Hesc.
  { apply accepts_all_below.
    constructor; [unfold backslash; lia|]. constructor; [|constructor].
    apply orb_true_iff in Hesc. destruct Hesc as [H|H]; apply N.eqb_eq in H; subst c;
      [exact Hquote|unfold backslash; lia]. }
  destruct (c =? 9)%N; [apply accepts_lit|].
  destruct (c =? 10)%N; [apply accepts_lit|].
  destruct (c =? 13)%N; [apply accepts_lit|].
  destruct ((c <? 32)%N || (c =? 127)%N);
    [rewrite accepts_app, accepts_lit, accepts_hex_fixed; reflexivity|].
  destruct (N.ltb_spec c 127) as [Hc|_].
  { apply accepts_all_below. constructor; [lia|constructor]. }
  destruct (isprintable c) eqn:Hprintable.
  { cbn [stdout_accepts forallb]. rewrite (isprintable_encodes c Hprintable). reflexivity. }
  destruct (c <=? 255)%N;
    [rewrite accepts_app, accepts_lit, accepts_hex_fixed; reflexivity|].
  destruct (c <=? 65535)%N;
    rewrite accepts_app, accepts_lit, accepts_hex_fixed; reflexivity.
Qed.

Lemma accepts_repr_str (s : str) : stdout_accepts (repr_str s) = true.
Proof.
  unfold repr_str.
  set (quote := if has_char squote s && negb (has_char dquote s) then dquote else squote).
  assert (Hquote : (quote < 55296)%N).
  { unfold quote, squote, dquote.
    destruct (has_char 39%N s && negb (has_char 34%N s)); lia. }
  rewrite !accepts_app, (accepts_flat_map _ _ (fun c => accepts_repr_char quote c Hquote)).
  cbn [stdout_accepts forallb]. rewrite (encodes_below quote Hquote). reflexivity.
Qed.

Lemma accepts_repr (v : value) : stdout_accepts (repr v) = true.
Proof.
  induction v as [|b|z|f|s|l IH|d IH] using value_nested_ind.
  - reflexivity.
  - destruct b; reflexivity.
  - apply accepts_dec.
  - apply float_repr_encodes.
  - apply accepts_repr_str.
  - cbn [repr]. rewrite !accepts_app, !accepts_lit.
    rewrite accepts_join; [reflexivity|apply accepts_lit|].
    apply Forall_map. exact IH.
  - cbn [repr]. rewrite !accepts_app, !accepts_lit.
    rewrite accepts_join; [reflexivity|apply accepts_lit|].
    apply Forall_map. eapply Forall_impl; [|exact IH].
    intros [k y] Hy. cbn [snd] in Hy.
    rewrite !accepts_app, accepts_repr_str, accepts_lit, Hy. reflexivity.
Qed.

Lemma accepts_window_header (i : nat) : stdout_accepts (window_header i) = true.
Proof.
  unfold window_header. rewrite !accepts_app, !accepts_lit, accepts_dec_nat. reflexivity.
Qed.

Lemma accepts_total_line (n : nat) : stdout_accepts (total_line n) = true.
Proof.
  unfold total_line. rewrite !accepts_app, !accepts_lit, accepts_dec_nat. reflexivity.
Qed.

Lemma accepts_groups_line (groups : value) : stdout_accepts (groups_line groups) = true.
Proof.
  unfold groups_line, json_dumps_indent2.
  rewrite accepts_app, accepts_lit, accepts_firstn; [reflexivity|].
  apply accepts_json_encode.
Qed.

Lemma accepts_tab_text (j : nat) (g u : str) :
  stdout_accepts (tab_text j g u) = stdout_accepts g && stdout_accepts u.
Proof.
  unfold tab_text. rewrite !accepts_app, !accepts_lit, accepts_dec_nat. reflexivity.
Qed.

Lemma print_accepted (s : str) :
  stdout_accepts s = true -> print s = ([s], ok tt).
Proof. intros H. unfold print. rewrite H. reflexivity. Qed.

Lemma print_refused (s : str) :
  stdout_accepts s = false -> print s = ([], raise UnicodeEncodeError).
Proof. intros H. unfold print. rewrite H. reflexivity. Qed.

(** *** The frame decoder *)

Lemma int_from_bytes_little_bound (b : bytes) :
  0 <= int_from_bytes_little b < 256 ^ Z.of_nat (length b).
Proof.
  induction b as [|x rest IH].
  - simpl. lia.
  - cbn [int_from_bytes_little length].
    rewrite Nat2Z.inj_succ, Z.pow_succ_r by lia.
    pose proof (Byte.to_N_bounded x) as Hx.
    lia.
Qed.

Lemma frame_header_slices (data : bytes) :
  frame_header data
  = ok (skipn 12 data, int_from_bytes_little (firstn 4 (skipn 8 data))).
Proof. reflexivity. Qed.

Lemma frame_header_after_magic (d1 d2 : bytes) :
  skipn 8 d1 = skipn 8 d2 -> frame_header d1 = frame_header d2.
Proof.
  intros Heq.
  rewrite !frame_header_slices.
  change 12%nat with (4 + 8)%nat.
  rewrite <- !skipn_skipn, Heq.
  reflexivity.
Qed.

(** C3: two buffers of at least 12 bytes that agree from byte 8 on make the
    script behave identically, whatever their first 8 bytes are: the magic
    is never read. *)
Theorem magic_bytes_never_read (d1 d2 : bytes) :
  (12 <= length d1)%nat ->
  (12 <= length d2)%nat ->
  skipn 8 d1 = skipn 8 d2 ->
  script d1 = script d2.
Proof.
  intros _ _ Heq.
  unfold script, frame_decode.
  rewrite (frame_header_after_magic d1 d2 Heq).
  reflexivity.
Qed.

(** C2 (amended): on a buffer shorter than 12 bytes both slices succeed.
    The payload slice is empty, the size slice is whatever lies past byte
    8 (so the declared size is below [256 ^ (len - 8)], and 0 when there
    are at most 8 bytes), and the decompressor is called on them: any
    failure comes from the decompressor, not from slicing. *)
Theorem short_buffer_slices_succeed (data : bytes) :
  (length data < 12)%nat ->
  frame_header data = ok ([], int_from_bytes_little (skipn 8 data))
  /\ 0 <= int_from_bytes_little (skipn 8 data) < 256 ^ Z.of_nat (length data - 8)
  /\ frame_decode data
     = lz4_block_decompress [] (int_from_bytes_little (skipn 8 data)).
Proof.
  intros Hlen.
  assert (Hhead : frame_header data = ok ([], int_from_bytes_little (skipn 8 data))).
  { rewrite frame_header_slices.
    rewrite (skipn_all2 (n := 12)) by lia.
    rewrite firstn_all2 by (rewrite length_skipn; lia).
    reflexivity. }
  split; [exact Hhead|].
  split.
  - rewrite <- (length_skipn 8 data).
    apply int_from_bytes_little_bound.
  - unfold frame_decode. rewrite Hhead. reflexivity.
Qed.

(** *** Sequence indexing *)

Lemma seq_index_forward {A} (l : list A) (k : Z) :
  0 <= k < Z.of_nat (length l) ->
  exists x, nth_error l (Z.to_nat k) = Some x /\ seq_index l k = ok x.
Proof.
  intros Hk.
  unfold seq_index.
  destruct (Z.ltb_spec k 0) as [?|_]; [lia|].
  destruct (Z.ltb_spec k 0) as [?|_]; [lia|].
  destruct (Z.leb_spec (Z.of_nat (length l)) k) as [?|_]; [lia|].
  cbn [orb].
  destruct (nth_error l (Z.to_nat k)) as [x|] eqn:Hnth.
  - exists x. split; reflexivity.
  - apply nth_error_None in Hnth. lia.
Qed.

Lemma seq_index_backward {A} (l : list A) (k : Z) :
  - Z.of_nat (length l) <= k < 0 ->
  exists x, nth_error l (Z.to_nat (k + Z.of_nat (length l))) = Some x
            /\ seq_index l k = ok x.
Proof.
  intros Hk.
  unfold seq_index.
  destruct (Z.ltb_spec k 0) as [_|?]; [|lia].
  destruct (Z.ltb_spec (k + Z.of_nat (length l)) 0) as [?|_]; [lia|].
  destruct (Z.leb_spec (Z.of_nat (length l)) (k + Z.of_nat (length l))) as [?|_]; [lia|].
  cbn [orb].
  destruct (nth_error l (Z.to_nat (k + Z.of_nat (length l)))) as [x|] eqn:Hnth.
  - exists x. split; reflexivity.
  - apply nth_error_None in Hnth. lia.
Qed.

Lemma seq_index_outside {A} (l : list A) (k : Z) :
  k < - Z.of_nat (length l) \/ Z.of_nat (length l) <= k ->
  seq_index l k = raise IndexError.
Proof.
  intros Hk.
  unfold seq_index.
  destruct (Z.ltb_spec k 0) as [Hneg|Hpos].
  - destruct (Z.ltb_spec (k + Z.of_nat (length l)) 0) as [_|?]; [reflexivity|lia].
  - destruct (Z.ltb_spec k 0) as [?|_]; [lia|].
    destruct (Z.leb_spec (Z.of_nat (length l)) k) as [_|?]; [reflexivity|lia].
Qed.

Lemma nth_error_last {A} (l : list A) (d : A) :
  l <> [] -> nth_error l (length l - 1) = Some (last l d).
Proof.
  induction l as [|x [|y rest] IH]; intros Hne.
  - contradiction.
  - reflexivity.
  - replace (length (x :: y :: rest) - 1)%nat with (S (length (y :: rest) - 1))
      by (cbn [length]; lia).
    cbn [nth_error]. change (last (x :: y :: rest) d) with (last (y :: rest) d).
    apply IH. discriminate.
Qed.

Lemma seq_index_minus_one {A} (l : list A) (d : A) :
  l <> [] -> seq_index l (-1) = ok (last l d).
Proof.
  intros Hne.
  assert (Hlen : (0 < length l)%nat) by (destruct l; [contradiction|simpl; lia]).
  destruct (seq_index_backward l (-1)) as (x & Hnth & Hidx); [lia|].
  rewrite Hidx. f_equal.
  replace (Z.to_nat (-1 + Z.of_nat (length l))) with (length l - 1)%nat in Hnth by lia.
  rewrite (nth_error_last l d Hne) in Hnth.
  congruence.
Qed.

(** *** Line 17: the active entry *)

Lemma active_entry_of_list (d : list (str * value)) (es : list value) :
  lookup (lit "entries") d = Some (VList es) ->
  es <> [] ->
  active_entry (VDict d)
  = match lookup (lit "index") d with
    | None => raise KeyError
    | Some index => k <-- py_sub_int index 1 ;; py_getitem (VList es) k
    end.
Proof.
  intros Hentries Hne.
  unfold active_entry, py_get, py_getitem, dict_get.
  rewrite Hentries.
  destruct es as [|e es']; [contradiction|].
  cbn [rbind ok truthy length Nat.eqb negb].
  destruct (lookup (lit "index") d); reflexivity.
Qed.

Lemma active_entry_placeholder (d : list (str * value)) :
  lookup (lit "entries") d = None \/ lookup (lit "entries") d = Some (VList []) ->
  active_entry (VDict d) = ok (VDict []).
Proof.
  intros [H|H]; unfold active_entry, py_get, dict_get; rewrite H; reflexivity.
Qed.

(** C1 (amended): for a tab whose [entries] is a non-empty list, the
    selection raises KeyError when [index] is absent and IndexError when
    [index] is an integer above [len] or at most [-len]; for every other
    integer it succeeds, yielding [entries[index-1]] for [1 <= index <= len]
    and, counted from the end, [entries[len+index-1]] for
    [-len < index <= 0]. *)
Theorem active_entry_by_index (d : list (str * value)) (es : list value) :
  lookup (lit "entries") d = Some (VList es) ->
  es <> [] ->
  (lookup (lit "index") d = None -> active_entry (VDict d) = raise KeyError)
  /\ (forall n : Z,
        lookup (lit "index") d = Some (VInt n) ->
        (1 <= n <= Z.of_nat (length es) ->
         exists e, nth_error es (Z.to_nat (n - 1)) = Some e
                   /\ active_entry (VDict d) = ok e)
        /\ (- Z.of_nat (length es) < n <= 0 ->
            exists e, nth_error es (Z.to_nat (n - 1 + Z.of_nat (length es))) = Some e
                      /\ active_entry (VDict d) = ok e)
        /\ (n <= - Z.of_nat (length es) \/ Z.of_nat (length es) < n ->
            active_entry (VDict d) = raise IndexError)).
Proof.
  intros Hentries Hne.
  rewrite (active_entry_of_list d es Hentries Hne).
  split.
  - intros ->. reflexivity.
  - intros n ->.
    cbn [py_sub_int rbind ok py_getitem as_index].
    repeat split.
    + intros Hn. apply seq_index_forward. lia.
    + intros Hn. apply seq_index_backward. lia.
    + intros Hn. apply seq_index_outside. lia.
Qed.

(** *** Line 18: the printed fields *)

Lemma group_field_of_dict (d : list (str * value)) :
  group_field (VDict d) = ok (repr (group_or_missing d)).
Proof. reflexivity. Qed.

Lemma url_field_of_str (e : list (str * value)) (u : str) :
  lookup (lit "url") e = Some (VStr u) ->
  url_field (VDict e) = ok (firstn 80 u).
Proof.
  intros H. unfold url_field, py_get, dict_get. rewrite H. reflexivity.
Qed.

Lemma url_field_absent (e : list (str * value)) :
  lookup (lit "url") e = None ->
  url_field (VDict e) = ok [].
Proof.
  intros H. unfold url_field, py_get, dict_get. rewrite H. reflexivity.
Qed.

Lemma report_tab_prints (j : nat) (d : list (str * value)) (entry : value) (u : str) :
  active_entry (VDict d) = ok entry ->
  url_field entry = ok u ->
  report_tab j (VDict d) = print (tab_text j (repr (group_or_missing d)) u).
Proof.
  intros Hentry Hurl.
  unfold report_tab.
  rewrite Hentry. cbn [lift bind].
  unfold tab_line.
  rewrite group_field_of_dict. cbn [rbind ok].
  rewrite Hurl. cbn [rbind ok app].
  destruct (print (tab_text j (repr (group_or_missing d)) u)) as [out r].
  reflexivity.
Qed.

Lemma accepts_tab_line (j : nat) (d : list (str * value)) (u : str) :
  stdout_accepts (tab_text j (repr (group_or_missing d)) u) = stdout_accepts u.
Proof. rewrite accepts_tab_text, accepts_repr. reflexivity. Qed.

Lemma report_tab_printed (j : nat) (d : list (str * value)) (entry : value) (u : str) :
  active_entry (VDict d) = ok entry ->
  url_field entry = ok u ->
  stdout_accepts u = true ->
  report_tab j (VDict d) = ([tab_text j (repr (group_or_missing d)) u], ok tt).
Proof.
  intros Hentry Hurl Hu.
  rewrite (report_tab_prints j d entry u Hentry Hurl).
  apply print_accepted. rewrite accepts_tab_line. exact Hu.
Qed.

Lemma report_tab_refused (j : nat) (d : list (str * value)) (entry : value) (u : str) :
  active_entry (VDict d) = ok entry ->
  url_field entry = ok u ->
  stdout_accepts u = false ->
  report_tab j (VDict d) = ([], raise UnicodeEncodeError).
Proof.
  intros Hentry Hurl Hu.
  rewrite (report_tab_prints j d entry u Hentry Hurl).
  apply print_refused. rewrite accepts_tab_line. exact Hu.
Qed.

Lemma print_output (s x : str) : output (print s) = [x] -> x = s.
Proof.
  unfold print. destruct (stdout_accepts s); cbn [output fst]; intros H;
    [injection H as <-; reflexivity|discriminate H].
Qed.

Lemma missing_group_text (j : nat) (d : list (str * value)) (u : str) :
  lookup (lit "group") d = None ->
  tab_text j (repr (group_or_missing d)) u
  = lit "Tab " ++ dec_nat j ++ lit ": group='MISSING', url=" ++ u.
Proof.
  intros Hgroup.
  assert (Hrepr : repr (group_or_missing d) = lit "'MISSING'").
  { unfold group_or_missing, dict_get. rewrite Hgroup. reflexivity. }
  rewrite Hrepr. unfold tab_text.
  change (lit ": group='MISSING', url=") with (lit ": group=" ++ lit "'MISSING'" ++ lit ", url=").
  rewrite <- !app_assoc. reflexivity.
Qed.

(** C9: with a non-empty [entries] list and [index = 0] the selection is
    [entries[-1]]: line 17 raises nothing, the last entry is chosen, and the
    url of the tab line is taken from it: the text handed to [print] holds
    the url field of the last entry, its first 80 characters when it is a
    string, and that text is printed whenever standard output can encode
    the url part. *)
Theorem index_zero_selects_last (j : nat) (d : list (str * value)) (es : list value) :
  lookup (lit "entries") d = Some (VList es) ->
  es <> [] ->
  lookup (lit "index") d = Some (VInt 0) ->
  active_entry (VDict d) = ok (last es VNone)
  /\ (forall u, url_field (last es VNone) = ok u ->
       report_tab j (VDict d) = print (tab_text j (repr (group_or_missing d)) u)
       /\ (stdout_accepts u = true ->
           report_tab j (VDict d) = ([tab_text j (repr (group_or_missing d)) u], ok tt)))
  /\ (forall e u, last es VNone = VDict e ->
       lookup (lit "url") e = Some (VStr u) ->
       report_tab j (VDict d)
       = print (tab_text j (repr (group_or_missing d)) (firstn 80 u))
       /\ (stdout_accepts (firstn 80 u) = true ->
           report_tab j (VDict d)
           = ([tab_text j (repr (group_or_missing d)) (firstn 80 u)], ok tt)))
  /\ (forall x, output (report_tab j (VDict d)) = [x] ->
       exists u, url_field (last es VNone) = ok u
                 /\ x = tab_text j (repr (group_or_missing d)) u).
Proof.
  intros Hentries Hne Hindex.
  assert (Hlast : active_entry (VDict d) = ok (last es VNone)).
  { rewrite (active_entry_of_list d es Hentries Hne), Hindex.
    cbn [py_sub_int rbind ok py_getitem as_index].
    change (0 - 1) with (-1).
    apply seq_index_minus_one, Hne. }
  split; [exact Hlast|].
  split; [|split].
  - intros u Hu. split.
    + apply (report_tab_prints j d _ u Hlast Hu).
    + apply (report_tab_printed j d _ u Hlast Hu).
  - intros e u He Hu.
    assert (Hfield : url_field (last es VNone) = ok (firstn 80 u)).
    { rewrite He. apply url_field_of_str, Hu. }
    split.
    + apply (report_tab_prints j d _ _ Hlast Hfield).
    + apply (report_tab_printed j d _ _ Hlast Hfield).
  - intros x Hout.
    destruct (url_field (last es VNone)) as [err|u] eqn:Hfield.
    + unfold report_tab, tab_line in Hout.
      rewrite Hlast, group_field_of_dict in Hout.
      cbn [lift bind rbind ok app] in Hout.
      rewrite Hfield in Hout. discriminate Hout.
    + exists u. split; [reflexivity|].
      rewrite (report_tab_prints j d _ u Hlast Hfield) in Hout.
      apply (print_output _ _ Hout).
Qed.

(** C6: a tab whose [entries] is absent or the empty list gets the empty
    placeholder entry whatever its [index] is; nothing is raised and the
    url printed is the empty string. *)
Theorem no_entries_prints_empty_url (j : nat) (d : list (str * value)) :
  lookup (lit "entries") d = None \/ lookup (lit "entries") d = Some (VList []) ->
  active_entry (VDict d) = ok (VDict [])
  /\ url_field (VDict []) = ok []
  /\ report_tab j (VDict d)
     = ([lit "Tab " ++ dec_nat j ++ lit ": group=" ++ repr (group_or_missing d)
         ++ lit ", url="], ok tt).
Proof.
  intros H.
  pose proof (active_entry_placeholder d H) as Hentry.
  split; [exact Hentry|].
  split; [reflexivity|].
  rewrite (report_tab_printed j d (VDict []) [] Hentry eq_refl eq_refl).
  unfold tab_text. rewrite app_nil_r. reflexivity.
Qed.

(** C7: when the active entry of a tab has a [url] string, the url of the
    tab line is its first 80 characters, the whole string if it has at most
    80: that line is the text handed to [print], it is what the tab prints
    whenever standard output can encode those characters, and the tab
    prints nothing else; otherwise [print] raises and the tab prints
    nothing. *)
Theorem url_cut_at_80 (j : nat) (d e : list (str * value)) (u : str) :
  active_entry (VDict d) = ok (VDict e) ->
  lookup (lit "url") e = Some (VStr u) ->
  report_tab j (VDict d)
  = print (lit "Tab " ++ dec_nat j ++ lit ": group=" ++ repr (group_or_missing d)
           ++ lit ", url=" ++ firstn 80 u)
  /\ (stdout_accepts (firstn 80 u) = true ->
      report_tab j (VDict d)
      = ([lit "Tab " ++ dec_nat j ++ lit ": group=" ++ repr (group_or_missing d)
          ++ lit ", url=" ++ firstn 80 u], ok tt))
  /\ (stdout_accepts (firstn 80 u) = false ->
      report_tab j (VDict d) = ([], raise UnicodeEncodeError))
  /\ (forall x, output (report_tab j (VDict d)) = [x] ->
      x = lit "Tab " ++ dec_nat j ++ lit ": group=" ++ repr (group_or_missing d)
          ++ lit ", url=" ++ firstn 80 u)
  /\ length (firstn 80 u) = Nat.min 80 (length u)
  /\ ((length u <= 80)%nat -> firstn 80 u = u).
Proof.
  intros Hentry Hurl.
  pose proof (url_field_of_str e u Hurl) as Hfield.
  split; [|split; [|split; [|split; [|split]]]].
  - apply (report_tab_prints j d (VDict e) _ Hentry Hfield).
  - apply (report_tab_printed j d (VDict e) _ Hentry Hfield).
  - apply (report_tab_refused j d (VDict e) _ Hentry Hfield).
  - intros x Hout.
    rewrite (report_tab_prints j d (VDict e) _ Hentry Hfield) in Hout.
    apply (print_output _ _ Hout).
  - apply length_firstn.
  - intros Hlen. apply firstn_all2, Hlen.
Qed.

(** C8: for a tab without a [group] key the group field of line 18 is the
    [repr] of the marker string, ['MISSING'] in single quotes.  When line 17
    selects an entry and the url field can be produced, the text handed to
    [print] is the tab line with that group value, and it is printed
    whenever standard output can encode the url part; whatever such a tab
    prints carries [group='MISSING']. *)
Theorem missing_group_marker (j : nat) (d : list (str * value)) :
  lookup (lit "group") d = None ->
  group_field (VDict d) = ok (lit "'MISSING'")
  /\ (forall entry u,
        active_entry (VDict d) = ok entry ->
        url_field entry = ok u ->
        report_tab j (VDict d)
        = print (lit "Tab " ++ dec_nat j ++ lit ": group='MISSING', url=" ++ u)
        /\ (stdout_accepts u = true ->
            report_tab j (VDict d)
            = ([lit "Tab " ++ dec_nat j ++ lit ": group='MISSING', url=" ++ u], ok tt)))
  /\ (forall x, output (report_tab j (VDict d)) = [x] ->
        exists u, x = lit "Tab " ++ dec_nat j ++ lit ": group='MISSING', url=" ++ u).
Proof.
  intros Hgroup.
  split.
  { rewrite group_field_of_dict. unfold group_or_missing, dict_get.
    rewrite Hgroup. reflexivity. }
  split.
  - intros entry u Hentry Hurl.
    rewrite <- (missing_group_text j d u Hgroup).
    split.
    + apply (report_tab_prints j d entry u Hentry Hurl).
    + apply (report_tab_printed j d entry u Hentry Hurl).
  - intros x Hout.
    destruct (active_entry (VDict d)) as [err|entry] eqn:Hentry.
    { unfold report_tab in Hout. rewrite Hentry in Hout. discriminate Hout. }
    destruct (url_field entry) as [err|u] eqn:Hurl.
    { unfold report_tab, tab_line in Hout.
      rewrite Hentry, group_field_of_dict in Hout.
      cbn [lift bind rbind ok app] in Hout.
      rewrite Hurl in Hout. discriminate Hout. }
    exists u. rewrite <- (missing_group_text j d u Hgroup).
    rewrite (report_tab_prints j d entry u Hentry Hurl) in Hout.
    apply (print_output _ _ Hout).
Qed.

(** *** Statements and loops *)

Lemma bind_print {B} (s : str) (k : unit -> Py B) :
  stdout_accepts s = true ->
  bind (print s) k = (s :: output (k tt), snd (k tt)).
Proof.
  intros Hs. rewrite (print_accepted s Hs).
  unfold bind, output, ok. destruct (k tt). reflexivity.
Qed.

Lemma bind_lift_ok {A B} (a : A) (k : A -> Py B) :
  bind (lift (ok a)) k = k a.
Proof. unfold bind, lift, ok. destruct (k a). reflexivity. Qed.

Lemma filter_all {A} (f : A -> bool) (l : list A) :
  Forall (fun x => f x = true) l -> filter f l = l.
Proof.
  induction 1 as [|x l Hx _ IH]; cbn [filter]; [reflexivity|].
  rewrite Hx, IH. reflexivity.
Qed.

Lemma filter_none {A} (f : A -> bool) (l : list A) :
  Forall (fun x => f x = false) l -> filter f l = [].
Proof.
  induction 1 as [|x l Hx _ IH]; cbn [filter]; [reflexivity|].
  rewrite Hx, IH. reflexivity.
Qed.

(** The body of the tab loop either raises before printing or prints one
    line; which of the two does not depend on the ordinal. *)
Lemma report_tab_shape (tab : value) :
  (exists e, forall j, report_tab j tab = ([], raise e))
  \/ (exists g u, forall j, report_tab j tab = ([tab_text j g u], ok tt)).
Proof.
  destruct (active_entry tab) as [e|entry] eqn:Hentry.
  { left. exists e. intros j. unfold report_tab. rewrite Hentry. reflexivity. }
  destruct (group_field tab) as [e|g] eqn:Hg.
  { left. exists e. intros j. unfold report_tab, tab_line.
    rewrite Hentry, bind_lift_ok, Hg. reflexivity. }
  destruct (url_field entry) as [e|u] eqn:Hu.
  { left. exists e. intros j. unfold report_tab, tab_line.
    rewrite Hentry, bind_lift_ok, Hg. cbn [rbind]. rewrite Hu. reflexivity. }
  assert (Hline : forall j, report_tab j tab = print (tab_text j g u)).
  { intros j. unfold report_tab, tab_line.
    rewrite Hentry, bind_lift_ok, Hg. cbn [rbind]. rewrite Hu. cbn [rbind].
    apply bind_lift_ok. }
  destruct (stdout_accepts g && stdout_accepts u) eqn:Hacc.
  - right. exists g, u. intros j. rewrite Hline.
    apply print_accepted. rewrite accepts_tab_text. exact Hacc.
  - left. exists UnicodeEncodeError. intros j. rewrite Hline.
    apply print_refused. rewrite accepts_tab_text. exact Hacc.
Qed.

Lemma tab_completes_prints (tab : value) :
  tab_completes tab ->
  exists g u, forall j, report_tab j tab = ([tab_text j g u], ok tt).
Proof.
  unfold tab_completes.
  destruct (report_tab_shape tab) as [(e & H)|H]; [|intros _; exact H].
  rewrite H. discriminate.
Qed.

Lemma tab_loop_completes (ts : list value) :
  Forall tab_completes ts ->
  forall start, exists lines,
    for_enumerate report_tab start ts = (lines, ok tt)
    /\ length lines = length ts
    /\ Forall is_tab_text lines
    /\ (forall k tab, nth_error ts k = Some tab ->
          exists text, report_tab (start + k) tab = ([text], ok tt)
                       /\ nth_error lines k = Some text).
Proof.
  induction 1 as [|tab rest Htab _ IH]; intros start.
  - exists []. repeat split; [constructor|].
    intros [|k] tab Hnth; discriminate Hnth.
  - destruct (tab_completes_prints tab Htab) as (g & u & Hprint).
    destruct (IH (S start)) as (lines & Hloop & Hlen & Hshape & Hnth).
    exists (tab_text start g u :: lines).
    repeat split.
    + cbn [for_enumerate]. rewrite Hprint. unfold bind. rewrite Hloop. reflexivity.
    + cbn [length]. rewrite Hlen. reflexivity.
    + constructor; [exists start, g, u; reflexivity|exact Hshape].
    + intros [|k] tab' Hk.
      * injection Hk as <-. exists (tab_text start g u).
        rewrite Nat.add_0_r. split; [apply Hprint|reflexivity].
      * rewrite Nat.add_succ_r. apply (Hnth k tab' Hk).
Qed.

Lemma tab_text_classes (line : str) :
  is_tab_text line ->
  is_tab_line line = true /\ is_window_header line = false /\ is_total_line line = false.
Proof.
  intros (j & g & u & ->). repeat split; reflexivity.
Qed.

(** *** Lines 13 to 19 on one window *)

Lemma report_window_split (i : nat) (d : list (str * value)) :
  report_window i (VDict d)
  = (window_header i :: groups_line (dict_get d (lit "groups") (VList [])) :: [] ::
       output (report_tabs (dict_get d (lit "tabs") (VList []))),
     snd (report_tabs (dict_get d (lit "tabs") (VList [])))).
Proof.
  unfold report_window, report_tabs. cbn [py_get].
  set (tabs := dict_get d (lit "tabs") (VList [])).
  rewrite (bind_print _ _ (accepts_window_header i)), bind_lift_ok.
  rewrite (bind_print _ _ (accepts_groups_line _)).
  rewrite (bind_print [] _ eq_refl).
  rewrite !bind_lift_ok.
  reflexivity.
Qed.

Lemma report_tabs_done (ts : list value) (lines : list str) :
  for_enumerate report_tab 0 (firstn 5 ts) = (lines, ok tt) ->
  report_tabs (VList ts) = (lines ++ [total_line (length ts)], ok tt).
Proof.
  intros Hloop.
  unfold report_tabs.
  cbn [py_slice_to]. rewrite bind_lift_ok.
  cbn [py_iter]. rewrite bind_lift_ok.
  unfold bind at 1. rewrite Hloop. cbn [ok].
  cbn [py_len]. rewrite bind_lift_ok.
  rewrite (print_accepted _ (accepts_total_line _)).
  reflexivity.
Qed.

Lemma report_tabs_raise (ts : list value) (lines : list str) (e : exn) :
  for_enumerate report_tab 0 (firstn 5 ts) = (lines, raise e) ->
  report_tabs (VList ts) = (lines, raise e).
Proof.
  intros Hloop.
  unfold report_tabs.
  cbn [py_slice_to]. rewrite bind_lift_ok.
  cbn [py_iter]. rewrite bind_lift_ok.
  unfold bind at 1. rewrite Hloop. reflexivity.
Qed.

Lemma report_window_not_dict (i : nat) (win : value) :
  is_dict win = false ->
  report_window i win = ([window_header i], raise AttributeError).
Proof.
  intros Hkind. unfold report_window.
  rewrite (bind_print _ _ (accepts_window_header i)).
  destruct win; try reflexivity. discriminate Hkind.
Qed.

Lemma report_window_start (i : nat) (d : list (str * value)) :
  exists rest r,
    report_window i (VDict d)
    = (window_header i :: groups_line (dict_get d (lit "groups") (VList [])) :: [] :: rest, r).
Proof.
  rewrite report_window_split.
  eexists. eexists. reflexivity.
Qed.

Lemma report_window_tabs_done (i : nat) (d : list (str * value)) (ts : list value) (lines : list str) :
  dict_get d (lit "tabs") (VList []) = VList ts ->
  for_enumerate report_tab 0 (firstn 5 ts) = (lines, ok tt) ->
  report_window i (VDict d)
  = (window_header i :: groups_line (dict_get d (lit "groups") (VList [])) :: [] ::
       lines ++ [total_line (length ts)], ok tt).
Proof.
  intros Htabs Hloop.
  rewrite report_window_split, Htabs, (report_tabs_done ts lines Hloop).
  reflexivity.
Qed.

Lemma report_window_tabs_raise (i : nat) (d : list (str * value)) (ts : list value)
      (lines : list str) (e : exn) :
  dict_get d (lit "tabs") (VList []) = VList ts ->
  for_enumerate report_tab 0 (firstn 5 ts) = (lines, raise e) ->
  report_window i (VDict d)
  = (window_header i :: groups_line (dict_get d (lit "groups") (VList [])) :: [] :: lines,
     raise e).
Proof.
  intros Htabs Hloop.
  rewrite report_window_split, Htabs, (report_tabs_raise ts lines e Hloop).
  reflexivity.
Qed.

(** C5 (amended): for a window whose [tabs] is a list (or absent, which
    counts as the empty list), provided none of its first five tabs raises,
    the reporter prints one tab line for each of the first five tabs (for
    all of them when there are at most five), in document order, then the
    total-count line with the full length of [tabs]. *)
Theorem tab_lines_capped_at_five (i : nat) (d : list (str * value)) (ts : list value) :
  dict_get d (lit "tabs") (VList []) = VList ts ->
  Forall tab_completes (firstn 5 ts) ->
  exists lines,
    report_window i (VDict d)
    = (window_header i :: groups_line (dict_get d (lit "groups") (VList [])) :: [] ::
         lines ++ [total_line (length ts)], ok tt)
    /\ length lines = Nat.min 5 (length ts)
    /\ (forall j tab, (j < 5)%nat -> nth_error ts j = Some tab ->
          exists text, report_tab j tab = ([text], ok tt)
                       /\ nth_error lines j = Some text)
    /\ filter is_tab_line (output (report_window i (VDict d))) = lines
    /\ filter is_total_line (output (report_window i (VDict d)))
       = [total_line (length ts)].
Proof.
  intros Htabs Hok.
  destruct (tab_loop_completes _ Hok 0%nat) as (lines & Hloop & Hlen & Hshape & Hnth).
  exists lines.
  pose proof (report_window_tabs_done i d ts lines Htabs Hloop) as Hwin.
  split; [exact Hwin|].
  split; [rewrite Hlen; apply length_firstn|].
  split.
  { intros j tab Hj Hjth.
    apply (Hnth j tab).
    rewrite nth_error_firstn.
    destruct (Nat.ltb_spec j 5) as [_|?]; [exact Hjth|lia]. }
  rewrite Hwin. cbn [output fst].
  split.
  - cbn [filter]. change (is_tab_line (window_header i)) with false.
    change (is_tab_line (groups_line _)) with false.
    change (is_tab_line []) with false. cbv iota.
    rewrite filter_app.
    rewrite filter_all
      by (eapply Forall_impl; [|exact Hshape]; intros l Hl; apply (tab_text_classes l Hl)).
    change (filter is_tab_line [total_line (length ts)]) with (@nil str).
    apply app_nil_r.
  - cbn [filter]. change (is_total_line (window_header i)) with false.
    change (is_total_line (groups_line _)) with false.
    change (is_total_line []) with false. cbv iota.
    rewrite filter_app.
    rewrite filter_none
      by (eapply Forall_impl; [|exact Hshape]; intros l Hl; apply (tab_text_classes l Hl)).
    reflexivity.
Qed.

(** C10: an absent container field counts as empty.  A session without
    [windows] prints nothing and completes; a window without [tabs] prints
    no tab line and a total of 0; a window without [groups] prints the
    rendering of the empty list. *)
Theorem absent_containers_are_empty :
  (forall data raw d,
      frame_decode data = ok raw ->
      json_loads raw = ok (VDict d) ->
      lookup (lit "windows") d = None ->
      script data = ([], ok tt))
  /\ (forall i d,
        lookup (lit "tabs") d = None ->
        report_window i (VDict d)
        = ([window_header i; groups_line (dict_get d (lit "groups") (VList []));
            []; lit "... total 0 tabs"], ok tt))
  /\ (forall i d,
        lookup (lit "groups") d = None ->
        exists rest r,
          report_window i (VDict d)
          = (window_header i :: lit "Groups: []" :: [] :: rest, r)).
Proof.
  split; [|split].
  - intros data raw d Hraw Hdoc Hwin.
    unfold script. rewrite Hraw, bind_lift_ok, Hdoc, bind_lift_ok.
    unfold report, py_get, dict_get. rewrite Hwin. reflexivity.
  - intros i d Htabs.
    assert (Hget : dict_get d (lit "tabs") (VList []) = VList []).
    { unfold dict_get. rewrite Htabs. reflexivity. }
    rewrite (report_window_tabs_done i d [] [] Hget eq_refl).
    reflexivity.
  - intros i d Hgroups.
    destruct (report_window_start i d) as (rest & r & Hwin).
    exists rest, r. rewrite Hwin.
    unfold dict_get. rewrite Hgroups. reflexivity.
Qed.

(** *** Lines 12 to 19: the window loop *)

Lemma for_enumerate_completes {A} (body : nat -> A -> Py unit) (xs : list A) :
  forall start,
    raised (for_enumerate body start xs) = None ->
    output (for_enumerate body start xs)
    = flat_map (fun p => output (body (fst p) (snd p))) (enumerate start xs)
    /\ Forall (fun p => raised (body (fst p) (snd p)) = None) (enumerate start xs).
Proof.
  induction xs as [|x rest IH]; intros start Hdone.
  - split; [reflexivity|constructor].
  - cbn [for_enumerate enumerate flat_map fst snd] in *.
    destruct (body start x) as [out [e|[]]] eqn:Hbody.
    + discriminate Hdone.
    + unfold bind in *.
      destruct (for_enumerate body (S start) rest) as [out' r] eqn:Hrest.
      assert (Hr : raised (out', r) = None) by exact Hdone.
      destruct (IH (S start)) as (Hout & Hall); [rewrite Hrest; exact Hr|].
      rewrite Hrest in Hout. cbn [output fst] in *.
      split; [rewrite Hout; reflexivity|].
      constructor; [cbn [fst snd]; rewrite Hbody; reflexivity|exact Hall].
Qed.

Lemma tab_loop_lines (ts : list value) :
  forall start, Forall is_tab_text (output (for_enumerate report_tab start ts)).
Proof.
  induction ts as [|tab rest IH]; intros start.
  - constructor.
  - cbn [for_enumerate].
    destruct (report_tab_shape tab) as [(e & H)|(g & u & H)]; rewrite H.
    + constructor.
    + unfold bind, output.
      specialize (IH (S start)).
      destruct (for_enumerate report_tab (S start) rest) as [out r].
      cbn [fst app]. constructor; [exists start, g, u; reflexivity|exact IH].
Qed.

Lemma report_tabs_complete (tabs : value) :
  raised (report_tabs tabs) = None ->
  exists lines n,
    report_tabs tabs = (lines ++ [total_line n], ok tt) /\ Forall is_tab_text lines.
Proof.
  unfold report_tabs.
  destruct tabs as [| | | |s|ts|d]; try (intros H; discriminate H).
  - cbn [py_slice_to]. rewrite bind_lift_ok.
    cbn [py_iter]. rewrite bind_lift_ok.
    pose proof (tab_loop_lines (map (fun c => VStr [c]) (firstn 5 s)) 0) as Hlines.
    destruct (for_enumerate report_tab 0 (map (fun c => VStr [c]) (firstn 5 s)))
      as [lines [e|[]]]; [intros H; discriminate H|].
    intros _. exists lines, (length s). split; [|exact Hlines].
    cbn [py_len]. rewrite bind_lift_ok.
    rewrite (print_accepted _ (accepts_total_line _)). reflexivity.
  - cbn [py_slice_to]. rewrite bind_lift_ok.
    cbn [py_iter]. rewrite bind_lift_ok.
    pose proof (tab_loop_lines (firstn 5 ts) 0) as Hlines.
    destruct (for_enumerate report_tab 0 (firstn 5 ts)) as [lines [e|[]]]; [intros H; discriminate H|].
    intros _. exists lines, (length ts). split; [|exact Hlines].
    cbn [py_len]. rewrite bind_lift_ok.
    rewrite (print_accepted _ (accepts_total_line _)). reflexivity.
Qed.

(** A window that raises nothing prints one whole block. *)
Lemma report_window_complete (i : nat) (win : value) :
  raised (report_window i win) = None ->
  exists g lines n,
    report_window i win = (window_block i g lines n, ok tt)
    /\ Forall is_tab_text lines.
Proof.
  destruct win as [| | | | | |d];
    try (rewrite report_window_not_dict by reflexivity; intros H; discriminate H).
  rewrite report_window_split.
  intros Hdone.
  destruct (report_tabs_complete (dict_get d (lit "tabs") (VList []))) as (lines & n & Htabs & Hlines).
  { unfold raised in *. exact Hdone. }
  exists (dict_get d (lit "groups") (VList [])), lines, n.
  rewrite Htabs. split; [reflexivity|exact Hlines].
Qed.

Lemma window_block_headers (i : nat) (g : value) (lines : list str) (n : nat) :
  Forall is_tab_text lines ->
  filter is_window_header (window_block i g lines n) = [window_header i].
Proof.
  intros Hlines.
  unfold window_block. cbn [filter].
  change (is_window_header (window_header i)) with true.
  change (is_window_header (groups_line g)) with false.
  change (is_window_header []) with false. cbv iota.
  rewrite filter_app.
  rewrite filter_none
    by (eapply Forall_impl; [|exact Hlines]; intros l Hl; apply (tab_text_classes l Hl)).
  reflexivity.
Qed.

Lemma window_loop_headers (ws : list value) :
  forall start,
    Forall (fun p => raised (report_window (fst p) (snd p)) = None) (enumerate start ws) ->
    filter is_window_header
      (flat_map (fun p => output (report_window (fst p) (snd p))) (enumerate start ws))
    = map window_header (seq start (length ws)).
Proof.
  induction ws as [|w rest IH]; intros start Hall.
  - reflexivity.
  - cbn [enumerate flat_map length seq map fst snd] in *.
    apply Forall_cons_iff in Hall. destruct Hall as (Hw & Hrest).
    destruct (report_window_complete start w Hw) as (g & lines & n & Hblock & Hlines).
    rewrite filter_app, Hblock. cbn [output fst].
    rewrite (window_block_headers start g lines n Hlines), (IH (S start) Hrest).
    reflexivity.
Qed.

(** C4 (amended): for a frame that decompresses and parses to a session
    whose [windows] is a list, provided the reporter raises nothing, the
    output is the concatenation, in document order, of one block per
    element of [windows]: each block is a delimiter line with the window's
    position, the groups line, a blank line, tab lines and the total line,
    so the delimiters printed are exactly those of positions 0 to
    [len(windows) - 1]. *)
Theorem one_block_per_window (data raw : bytes) (d : list (str * value)) (ws : list value) :
  frame_decode data = ok raw ->
  json_loads raw = ok (VDict d) ->
  dict_get d (lit "windows") (VList []) = VList ws ->
  raised (script data) = None ->
  output (script data)
  = flat_map (fun p => output (report_window (fst p) (snd p))) (enumerate 0 ws)
  /\ Forall (fun p => exists g lines n,
                 report_window (fst p) (snd p) = (window_block (fst p) g lines n, ok tt)
                 /\ Forall is_tab_text lines)
       (enumerate 0 ws)
  /\ filter is_window_header (output (script data))
     = map window_header (seq 0 (length ws)).
Proof.
  intros Hraw Hdoc Hwins Hdone.
  assert (Hscript : script data = for_enumerate report_window 0 ws).
  { unfold script. rewrite Hraw, bind_lift_ok, Hdoc, bind_lift_ok.
    unfold report. cbn [py_get]. rewrite Hwins, bind_lift_ok.
    cbn [py_iter]. rewrite bind_lift_ok. reflexivity. }
  rewrite Hscript in *.
  destruct (for_enumerate_completes report_window ws 0 Hdone) as (Hout & Hall).
  split; [exact Hout|].
  split.
  - eapply Forall_impl; [|exact Hall].
    intros p Hp. apply (report_window_complete (fst p) (snd p) Hp).
  - rewrite Hout. apply window_loop_headers, Hall.
Qed.

(** *** Documents that follow the data model *)

Lemma entry_conforms_url (entry : value) :
  entry_conforms entry = true ->
  exists u, url_field entry = ok u /\ stdout_accepts u = true.
Proof.
  destruct entry as [| | | | | |e]; try discriminate.
  cbn [entry_conforms].
  destruct (lookup (lit "url") e) as [[| | | |u| |]|] eqn:Hurl; try discriminate; intros Hu.
  - exists (firstn 80 u). split; [apply url_field_of_str, Hurl|exact Hu].
  - exists []. split; [apply url_field_absent, Hurl|reflexivity].
Qed.

Lemma tab_conforms_completes (tab : value) :
  tab_conforms tab = true -> tab_completes tab.
Proof.
  destruct tab as [| | | | | |d]; try discriminate.
  cbn [tab_conforms].
  assert (Hplace : lookup (lit "entries") d = None
                   \/ lookup (lit "entries") d = Some (VList []) ->
                   tab_completes (VDict d)).
  { intros H. unfold tab_completes.
    rewrite (report_tab_printed 0 d (VDict []) [] (active_entry_placeholder d H) eq_refl eq_refl).
    reflexivity. }
  destruct (lookup (lit "entries") d) as [[| | | | |es|]|] eqn:Hentries;
    try discriminate; [|intros _; apply Hplace; left; reflexivity].
  destruct es as [|e0 es']; [intros _; apply Hplace; right; reflexivity|].
  set (es := e0 :: es') in *.
  destruct (lookup (lit "index") d) as [[| |n| | | |]|] eqn:Hindex; try discriminate.
  intros Hok.
  apply andb_true_iff in Hok. destruct Hok as (Hrange & Hall).
  apply andb_true_iff in Hrange. destruct Hrange as (Hlo & Hhi).
  apply Z.leb_le in Hlo. apply Z.leb_le in Hhi.
  destruct (seq_index_forward es (n - 1)) as (e & Hnth & Hsel); [lia|].
  assert (Hentry : active_entry (VDict d) = ok e).
  { rewrite (active_entry_of_list d es Hentries) by discriminate.
    rewrite Hindex. exact Hsel. }
  assert (He : entry_conforms e = true).
  { rewrite forallb_forall in Hall. apply Hall. eapply nth_error_In, Hnth. }
  destruct (entry_conforms_url e He) as (u & Hu & Hacc).
  unfold tab_completes.
  rewrite (report_tab_printed 0 d e u Hentry Hu Hacc). reflexivity.
Qed.

Lemma window_conforms_completes (i : nat) (win : value) :
  window_conforms win = true -> raised (report_window i win) = None.
Proof.
  destruct win as [| | | | | |d]; try discriminate.
  cbn [window_conforms].
  intros Hok.
  assert (Hts : exists ts, dict_get d (lit "tabs") (VList []) = VList ts
                           /\ forallb tab_conforms ts = true).
  { unfold dict_get.
    destruct (lookup (lit "tabs") d) as [[| | | | |ts|]|]; try discriminate.
    - exists ts. split; [reflexivity|exact Hok].
    - exists []. split; reflexivity. }
  destruct Hts as (ts & Htabs & Hall).
  assert (Hfirst : Forall tab_completes (firstn 5 ts)).
  { apply Forall_forall. intros tab Hin.
    apply tab_conforms_completes.
    rewrite forallb_forall in Hall. apply Hall.
    rewrite <- (firstn_skipn 5 ts). apply in_or_app. left. exact Hin. }
  destruct (tab_loop_completes _ Hfirst 0%nat) as (lines & Hloop & _).
  rewrite (report_window_tabs_done i d ts lines Htabs Hloop).
  reflexivity.
Qed.

Lemma for_enumerate_all_complete {A} (body : nat -> A -> Py unit) (xs : list A) :
  (forall i x, In x xs -> raised (body i x) = None) ->
  forall start, raised (for_enumerate body start xs) = None.
Proof.
  induction xs as [|x rest IH]; intros Hall start.
  - reflexivity.
  - cbn [for_enumerate].
    pose proof (Hall start x (or_introl eq_refl)) as Hx.
    specialize (IH (fun i y Hy => Hall i y (or_intror Hy)) (S start)).
    destruct (body start x) as [out [e|[]]]; [discriminate Hx|].
    unfold bind.
    destruct (for_enumerate body (S start) rest) as [out' r].
    exact IH.
Qed.

(** A session that follows the data model is reported without any
    exception: the proviso of C4 and C5 holds for every such document. *)
Lemma session_conforms_completes (session : value) :
  session_conforms session = true -> raised (report session) = None.
Proof.
  destruct session as [| | | | | |d]; try discriminate.
  cbn [session_conforms].
  intros Hok.
  assert (Hws : exists ws, dict_get d (lit "windows") (VList []) = VList ws
                           /\ forallb window_conforms ws = true).
  { unfold dict_get.
    destruct (lookup (lit "windows") d) as [[| | | | |ws|]|]; try discriminate.
    - exists ws. split; [reflexivity|exact Hok].
    - exists []. split; reflexivity. }
  destruct Hws as (ws & Hwins & Hall).
  unfold report. cbn [py_get]. rewrite Hwins, bind_lift_ok.
  cbn [py_iter]. rewrite bind_lift_ok.
  apply for_enumerate_all_complete.
  intros i w Hin. apply window_conforms_completes.
  rewrite forallb_forall in Hall. apply Hall, Hin.
Qed.

End Properties.

(** ** Concrete runs of the statements above *)

(** C1, as stated, fails: with [index = 0] the selection raises nothing and
    yields the last entry, and with [index] absent the exception is
    KeyError, not IndexError. *)
Lemma index_zero_or_absent_is_no_index_error :
  active_entry (tab_at 0) = ok entry_b
  /\ active_entry tab_no_index = raise KeyError.
Proof. split; reflexivity. Qed.

Lemma active_entry_by_index_witness :
  lookup (lit "entries") (tab_at_items 2) = Some (VList history)
  /\ history <> []
  /\ lookup (lit "index") (tab_at_items 2) = Some (VInt 2)
  /\ 1 <= 2 <= Z.of_nat (length history)
  /\ exists e, nth_error history (Z.to_nat (2 - 1)) = Some e
               /\ active_entry (VDict (tab_at_items 2)) = ok e.
Proof.
  assert (Hentries : lookup (lit "entries") (tab_at_items 2) = Some (VList history))
    by reflexivity.
  assert (Hne : history <> []) by discriminate.
  assert (Hrange : 1 <= 2 <= Z.of_nat (length history)) by (simpl; lia).
  split; [exact Hentries|]. split; [exact Hne|].
  split; [reflexivity|]. split; [exact Hrange|].
  exact (proj1 (proj2 (active_entry_by_index (tab_at_items 2) history Hentries Hne)
                  2 eq_refl) Hrange).
Defined.

(** C2, as stated, fails: on the empty buffer and on a ten-byte buffer the
    two slices yield values, an empty payload and the size read from the
    bytes that exist. *)
Lemma short_buffer_slices_do_not_fail :
  frame_header [] = ok ([], 0)
  /\ frame_header frame_short = ok ([], 261).
Proof. split; reflexivity. Qed.

Lemma short_buffer_slices_succeed_witness :
  (length frame_short < 12)%nat
  /\ frame_header frame_short = ok ([], int_from_bytes_little (skipn 8 frame_short))
  /\ 0 <= int_from_bytes_little (skipn 8 frame_short)
          < 256 ^ Z.of_nat (length frame_short - 8)
  /\ frame_decode (LIB := stored_libraries session_good) frame_short
     = lz4_block_decompress (Libraries := stored_libraries session_good) []
         (int_from_bytes_little (skipn 8 frame_short)).
Proof.
  assert (Hlen : (length frame_short < 12)%nat) by (simpl; lia).
  split; [exact Hlen|].
  exact (short_buffer_slices_succeed (LIB := stored_libraries session_good)
           frame_short Hlen).
Defined.

Lemma magic_bytes_never_read_witness :
  (12 <= length frame_a)%nat
  /\ (12 <= length frame_b)%nat
  /\ skipn 8 frame_a = skipn 8 frame_b
  /\ script (LIB := stored_libraries session_good) frame_a
     = script (LIB := stored_libraries session_good) frame_b.
Proof.
  assert (Ha : (12 <= length frame_a)%nat) by (simpl; lia).
  assert (Hb : (12 <= length frame_b)%nat) by (simpl; lia).
  assert (Htail : skipn 8 frame_a = skipn 8 frame_b) by reflexivity.
  split; [exact Ha|]. split; [exact Hb|]. split; [exact Htail|].
  exact (magic_bytes_never_read (LIB := stored_libraries session_good)
           frame_a frame_b Ha Hb Htail).
Defined.

(** C4, as stated, fails: the frame parses to a session with two windows,
    the first tab of the first window points past its history, and the run
    ends with IndexError after one delimiter line; the second window gets
    no block. *)
Lemma report_stops_at_bad_tab :
  frame_decode (LIB := stored_libraries session_bad) frame_a = ok []
  /\ json_loads (Libraries := stored_libraries session_bad) [] = ok session_bad
  /\ length windows_bad = 2%nat
  /\ report session_bad
     = ([lit "=== Window 0 ==="; lit "Groups: []"; []], raise IndexError)
  /\ script (LIB := stored_libraries session_bad) frame_a
     = ([lit "=== Window 0 ==="; lit "Groups: []"; []], raise IndexError).
Proof. repeat split; reflexivity. Qed.

Lemma one_block_per_window_witness :
  frame_decode (LIB := stored_libraries session_good) frame_a = ok []
  /\ json_loads (Libraries := stored_libraries session_good) [] = ok (VDict session_good_items)
  /\ dict_get session_good_items (lit "windows") (VList []) = VList windows_good
  /\ raised (script (LIB := stored_libraries session_good) frame_a) = None
  /\ filter is_window_header (output (script (LIB := stored_libraries session_good) frame_a))
     = map window_header (seq 0 (length windows_good)).
Proof.
  assert (Hraw : frame_decode (LIB := stored_libraries session_good) frame_a = ok [])
    by reflexivity.
  assert (Hdoc : json_loads (Libraries := stored_libraries session_good) []
                 = ok (VDict session_good_items)) by reflexivity.
  assert (Hwins : dict_get session_good_items (lit "windows") (VList [])
                  = VList windows_good) by reflexivity.
  assert (Hdone : raised (script (LIB := stored_libraries session_good) frame_a) = None)
    by reflexivity.
  split; [exact Hraw|]. split; [exact Hdoc|]. split; [exact Hwins|].
  split; [exact Hdone|].
  exact (proj2 (proj2 (one_block_per_window (LIB := stored_libraries session_good)
                         frame_a [] session_good_items windows_good
                         Hraw Hdoc Hwins Hdone))).
Defined.

(** C5, as stated, fails: the window has one tab, which points past its
    history; the reporter prints no tab line and no total line and ends
    with IndexError. *)
Lemma bad_tab_prints_no_tab_line :
  report_window 0 window_bad_tab
  = ([lit "=== Window 0 ==="; lit "Groups: []"; []], raise IndexError)
  /\ filter is_tab_line (output (report_window 0 window_bad_tab)) = []
  /\ filter is_total_line (output (report_window 0 window_bad_tab)) = [].
Proof. repeat split; reflexivity. Qed.

Lemma tab_lines_capped_at_five_witness :
  dict_get window_seven_items (lit "tabs") (VList []) = VList seven_tabs
  /\ Forall tab_completes (firstn 5 seven_tabs)
  /\ exists lines,
       report_window 0 (VDict window_seven_items)
       = (window_header 0 :: groups_line (RT := plain_runtime) (VList []) :: [] ::
            lines ++ [total_line 7], ok tt)
       /\ length lines = 5%nat.
Proof.
  assert (Htabs : dict_get window_seven_items (lit "tabs") (VList []) = VList seven_tabs)
    by reflexivity.
  assert (Hok : Forall tab_completes (firstn 5 seven_tabs))
    by (repeat constructor).
  split; [exact Htabs|]. split; [exact Hok|].
  destruct (tab_lines_capped_at_five 0 window_seven_items seven_tabs Htabs Hok)
    as (lines & Hwin & Hlen & _).
  exists lines. split; [exact Hwin|exact Hlen].
Defined.

Lemma no_entries_prints_empty_url_witness :
  (lookup (lit "entries") tab_empty_entries_items = None
   \/ lookup (lit "entries") tab_empty_entries_items = Some (VList []))
  /\ report_tab 3 (VDict tab_empty_entries_items) = ([lit "Tab 3: group=3, url="], ok tt).
Proof.
  assert (H : lookup (lit "entries") tab_empty_entries_items = None
              \/ lookup (lit "entries") tab_empty_entries_items = Some (VList []))
    by (right; reflexivity).
  split; [exact H|].
  exact (proj2 (proj2 (no_entries_prints_empty_url 3 tab_empty_entries_items H))).
Defined.

(** The example of the specification: a 120-character url is printed as
    its first 80 characters.  A url whose first 80 characters hold a lone
    surrogate is not printed: [print] raises. *)
Lemma url_cut_at_80_witness :
  (active_entry (VDict tab_long_url_items) = ok (VDict long_url_entry_items)
   /\ lookup (lit "url") long_url_entry_items = Some (VStr long_url)
   /\ stdout_accepts (firstn 80 long_url) = true
   /\ report_tab 0 (VDict tab_long_url_items)
      = ([lit "Tab 0: group='MISSING', url=https://example.com/" ++ repeat 120%N 60], ok tt))
  /\ (active_entry (VDict tab_surrogate_url_items) = ok (VDict surrogate_url_entry_items)
      /\ lookup (lit "url") surrogate_url_entry_items = Some (VStr surrogate_url)
      /\ stdout_accepts (firstn 80 surrogate_url) = false
      /\ report_tab 0 (VDict tab_surrogate_url_items) = ([], raise UnicodeEncodeError)).
Proof.
  assert (Hentry : active_entry (VDict tab_long_url_items) = ok (VDict long_url_entry_items))
    by reflexivity.
  assert (Hurl : lookup (lit "url") long_url_entry_items = Some (VStr long_url))
    by reflexivity.
  assert (Hacc : stdout_accepts (firstn 80 long_url) = true) by reflexivity.
  assert (Hentry' : active_entry (VDict tab_surrogate_url_items)
                    = ok (VDict surrogate_url_entry_items)) by reflexivity.
  assert (Hurl' : lookup (lit "url") surrogate_url_entry_items = Some (VStr surrogate_url))
    by reflexivity.
  assert (Hacc' : stdout_accepts (firstn 80 surrogate_url) = false) by reflexivity.
  split.
  - split; [exact Hentry|]. split; [exact Hurl|]. split; [exact Hacc|].
    exact (proj1 (proj2 (url_cut_at_80 0 tab_long_url_items long_url_entry_items long_url
                           Hentry Hurl)) Hacc).
  - split; [exact Hentry'|]. split; [exact Hurl'|]. split; [exact Hacc'|].
    exact (proj1 (proj2 (proj2 (url_cut_at_80 0 tab_surrogate_url_items
                                  surrogate_url_entry_items surrogate_url
                                  Hentry' Hurl'))) Hacc').
Defined.

(** A tab without [group] whose entry has no url: the line printed is
    [Tab 3: group='MISSING', url=]. *)
Lemma missing_group_marker_witness :
  lookup (lit "group") tab_no_url_items = None
  /\ active_entry (VDict tab_no_url_items) = ok (VDict no_url_entry_items)
  /\ url_field (VDict no_url_entry_items) = ok []
  /\ group_field (VDict tab_no_url_items) = ok (lit "'MISSING'")
  /\ report_tab 3 (VDict tab_no_url_items) = ([lit "Tab 3: group='MISSING', url="], ok tt).
Proof.
  assert (H : lookup (lit "group") tab_no_url_items = None) by reflexivity.
  assert (Hentry : active_entry (VDict tab_no_url_items) = ok (VDict no_url_entry_items))
    by reflexivity.
  assert (Hurl : url_field (VDict no_url_entry_items) = ok []) by reflexivity.
  split; [exact H|]. split; [exact Hentry|]. split; [exact Hurl|].
  split.
  - exact (proj1 (missing_group_marker 3 tab_no_url_items H)).
  - exact (proj2 (proj1 (proj2 (missing_group_marker 3 tab_no_url_items H))
                    (VDict no_url_entry_items) [] Hentry Hurl) eq_refl).
Defined.

(** [{"entries": [a, b], "index": 0}] prints the url of [b]. *)
Lemma index_zero_selects_last_witness :
  lookup (lit "entries") (tab_at_items 0) = Some (VList history)
  /\ history <> []
  /\ lookup (lit "index") (tab_at_items 0) = Some (VInt 0)
  /\ active_entry (VDict (tab_at_items 0)) = ok entry_b
  /\ report_tab 0 (VDict (tab_at_items 0))
     = ([lit "Tab 0: group='MISSING', url=https://b.example/"], ok tt).
Proof.
  assert (Hentries : lookup (lit "entries") (tab_at_items 0) = Some (VList history))
    by reflexivity.
  assert (Hne : history <> []) by discriminate.
  assert (Hindex : lookup (lit "index") (tab_at_items 0) = Some (VInt 0)) by reflexivity.
  split; [exact Hentries|]. split; [exact Hne|]. split; [exact Hindex|].
  split.
  - exact (proj1 (index_zero_selects_last 0 (tab_at_items 0) history Hentries Hne Hindex)).
  - exact (proj2 (proj1 (proj2 (proj2 (index_zero_selects_last 0 (tab_at_items 0) history
                                          Hentries Hne Hindex)))
                    [(lit "url", VStr (lit "https://b.example/"))]
                    (lit "https://b.example/") eq_refl eq_refl) eq_refl).
Defined.

Lemma absent_containers_are_empty_witness :
  frame_decode (LIB := stored_libraries session_empty) frame_a = ok []
  /\ json_loads (Libraries := stored_libraries session_empty) [] = ok (VDict [])
  /\ lookup (lit "windows") (@nil (str * doc)) = None
  /\ script (LIB := stored_libraries session_empty) frame_a = ([], ok tt)
  /\ report_window 0 (VDict (@nil (str * doc)))
     = ([lit "=== Window 0 ==="; lit "Groups: []"; []; lit "... total 0 tabs"], ok tt)
  /\ exists rest r,
       report_window 0 (VDict (@nil (str * doc)))
       = (window_header 0 :: lit "Groups: []" :: [] :: rest, r).
Proof.
  assert (Hraw : frame_decode (LIB := stored_libraries session_empty) frame_a = ok [])
    by reflexivity.
  assert (Hdoc : json_loads (Libraries := stored_libraries session_empty) [] = ok (VDict []))
    by reflexivity.
  assert (Hnone : forall key, lookup key (@nil (str * doc)) = None) by reflexivity.
  split; [exact Hraw|]. split; [exact Hdoc|]. split; [exact (Hnone _)|].
  split.
  - exact (proj1 (absent_containers_are_empty (LIB := stored_libraries session_empty))
             frame_a [] [] Hraw Hdoc (Hnone _)).
  - split.
    + exact (proj1 (proj2 (absent_containers_are_empty (LIB := stored_libraries session_empty)))
               0%nat [] (Hnone _)).
    + exact (proj2 (proj2 (absent_containers_are_empty (LIB := stored_libraries session_empty)))
               0%nat [] (Hnone _)).
Defined.

(** ** Further properties of the script *)

Section Extensions.

Context {RT : Runtime} {LIB : Libraries}.

Local Open Scope result_scope.

(** *** Line 8: the frame *)

(** X1: a buffer laid out as eight bytes of magic, four size bytes and a
    payload is split into exactly that payload and the size read least
    significant byte first, a number below [2^32]; the decompressor is
    called on these two. *)
Theorem frame_layout (magic body : bytes) (b0 b1 b2 b3 : byte) :
  length magic = 8%nat ->
  frame_header (magic ++ [b0; b1; b2; b3] ++ body) = ok (body, size_field b0 b1 b2 b3)
  /\ 0 <= size_field b0 b1 b2 b3 < 2 ^ 32
  /\ frame_decode (magic ++ [b0; b1; b2; b3] ++ body)
     = lz4_block_decompress body (size_field b0 b1 b2 b3).
Proof.
  intros Hlen.
  assert (Hhead : frame_header (magic ++ [b0; b1; b2; b3] ++ body)
                  = ok (body, size_field b0 b1 b2 b3)).
  { do 8 (destruct magic as [|? magic]; [discriminate Hlen|]).
    destruct magic; [|discriminate Hlen].
    rewrite frame_header_slices.
    cbn [app skipn firstn int_from_bytes_little].
    unfold size_field. f_equal. f_equal. lia. }
  split; [exact Hhead|].
  split.
  - unfold size_field.
    pose proof (Byte.to_N_bounded b0). pose proof (Byte.to_N_bounded b1).
    pose proof (Byte.to_N_bounded b2). pose proof (Byte.to_N_bounded b3).
    lia.
  - unfold frame_decode. rewrite Hhead. reflexivity.
Qed.

(** X2: when the decompressor or the parser raises, the script ends with
    that exception and has printed nothing. *)
Theorem failed_decode_prints_nothing (data : bytes) (e : exn) :
  frame_decode data = raise e
  \/ (exists raw, frame_decode data = ok raw /\ json_loads raw = raise e) ->
  script data = ([], raise e).
Proof.
  intros [Hraw|(raw & Hraw & Hdoc)]; unfold script; rewrite Hraw.
  - reflexivity.
  - rewrite bind_lift_ok, Hdoc. reflexivity.
Qed.

(** *** Lines 12 to 16: documents of the wrong shape *)

(** X3: a session that is not a mapping raises AttributeError, and a
    [windows] value that cannot be iterated (null, a boolean, a number)
    raises TypeError; in both cases nothing is printed. *)
Theorem malformed_session_raises (session : value) :
  (is_dict session = false -> report session = ([], raise AttributeError))
  /\ (forall d windows,
        session = VDict d ->
        lookup (lit "windows") d = Some windows ->
        is_container windows = false ->
        report session = ([], raise TypeError)).
Proof.
  split.
  - intros Hkind. destruct session; try reflexivity. discriminate Hkind.
  - intros d windows -> Hwin Hkind.
    unfold report, py_get, dict_get. rewrite Hwin, bind_lift_ok.
    destruct windows; try reflexivity; discriminate Hkind.
Qed.

(** X4: a window that is not a mapping gets its delimiter line, then the
    reporter raises AttributeError at the [groups] lookup. *)
Theorem malformed_window_raises (i : nat) (win : value) :
  is_dict win = false ->
  report_window i win = ([window_header i], raise AttributeError).
Proof.
  apply report_window_not_dict.
Qed.

(** X5: when [tabs] is present but neither a list nor the empty string,
    the window prints its delimiter, groups and blank lines and then
    raises, without any tab line or total line: the slice fails on a
    mapping and on a scalar, and the characters of a non-empty string have
    no [.get]. *)
Theorem malformed_tabs_raise (i : nat) (d : list (str * value)) (tabs : value) :
  lookup (lit "tabs") d = Some tabs ->
  (forall ts, tabs <> VList ts) ->
  tabs <> VStr [] ->
  report_window i (VDict d)
  = ([window_header i; groups_line (dict_get d (lit "groups") (VList [])); []],
     raise (odd_tabs_exn tabs)).
Proof.
  intros Htabs Hlist Hempty.
  rewrite report_window_split.
  assert (Hget : dict_get d (lit "tabs") (VList []) = tabs)
    by (unfold dict_get; rewrite Htabs; reflexivity).
  rewrite Hget.
  destruct tabs as [| | | |s|ts|dt]; try reflexivity.
  - destruct s as [|c s']; [contradiction Hempty; reflexivity|].
    destruct s' as [|? [|? [|? [|? ?]]]]; reflexivity.
  - contradiction (Hlist ts). reflexivity.
Qed.

(** X6: a window's output depends on its [groups], on its first five
    tabs and on the number of tabs only: other keys of the window and the
    contents of the tabs past the fifth are never looked at. *)
Theorem later_tabs_never_read (i : nat) (d1 d2 : list (str * value)) (ts1 ts2 : list value) :
  dict_get d1 (lit "groups") (VList []) = dict_get d2 (lit "groups") (VList []) ->
  dict_get d1 (lit "tabs") (VList []) = VList ts1 ->
  dict_get d2 (lit "tabs") (VList []) = VList ts2 ->
  firstn 5 ts1 = firstn 5 ts2 ->
  length ts1 = length ts2 ->
  report_window i (VDict d1) = report_window i (VDict d2).
Proof.
  intros Hgroups Htabs1 Htabs2 Hfirst Hlen.
  rewrite !report_window_split, Hgroups, Htabs1, Htabs2.
  unfold report_tabs. cbn [py_slice_to py_len].
  rewrite Hfirst, Hlen. reflexivity.
Qed.

(** *** Where a failing run stops *)

Lemma for_enumerate_first_failure {A} (body : nat -> A -> Py unit) (xs : list A) :
  forall start k x e,
    nth_error xs k = Some x ->
    Forall (fun p => raised (body (fst p) (snd p)) = None) (enumerate start (firstn k xs)) ->
    raised (body (start + k)%nat x) = Some e ->
    for_enumerate body start xs
    = (flat_map (fun p => output (body (fst p) (snd p))) (enumerate start (firstn k xs))
       ++ output (body (start + k)%nat x), raise e).
Proof.
  induction xs as [|a rest IH]; intros start k x e Hnth Hpre Hfail.
  - destruct k; discriminate Hnth.
  - destruct k as [|k].
    + injection Hnth as ->. rewrite Nat.add_0_r in *.
      cbn [for_enumerate firstn enumerate flat_map app].
      destruct (body start x) as [out [e'|[]]]; [|discriminate Hfail].
      injection Hfail as ->. reflexivity.
    + cbn [nth_error] in Hnth.
      cbn [firstn enumerate flat_map] in *.
      apply Forall_cons_iff in Hpre. destruct Hpre as (Ha & Hpre).
      cbn [fst snd] in *.
      rewrite Nat.add_succ_r in *.
      specialize (IH (S start) k x e Hnth Hpre Hfail).
      cbn [for_enumerate]. rewrite IH.
      destruct (body start a) as [out [e'|[]]]; [discriminate Ha|].
      unfold bind, output. cbn [fst]. rewrite app_assoc. reflexivity.
Qed.

Lemma report_tab_raises (tab : value) (e : exn) :
  raised (report_tab 0 tab) = Some e ->
  forall j, report_tab j tab = ([], raise e).
Proof.
  intros Hfail j.
  destruct (report_tab_shape tab) as [(e' & H)|(g & u & H)].
  - rewrite H in Hfail. injection Hfail as ->. apply H.
  - rewrite H in Hfail. discriminate Hfail.
Qed.

(** X7: in a window whose [tabs] is a list, when tab [k] (one of the
    first five) is the first to raise, the window has printed its
    delimiter, groups and blank lines and one line for each of the [k]
    tabs before it, in order; the exception of that tab ends the run and
    no total line is printed. *)
Theorem first_failing_tab (i : nat) (d : list (str * value)) (ts : list value)
        (k : nat) (tab : value) (e : exn) :
  dict_get d (lit "tabs") (VList []) = VList ts ->
  (k < 5)%nat ->
  nth_error ts k = Some tab ->
  Forall tab_completes (firstn k ts) ->
  raised (report_tab 0 tab) = Some e ->
  exists lines,
    report_window i (VDict d)
    = (window_header i :: groups_line (dict_get d (lit "groups") (VList [])) :: [] :: lines,
       raise e)
    /\ length lines = k
    /\ Forall is_tab_text lines
    /\ (forall j t, (j < k)%nat -> nth_error ts j = Some t ->
          exists text, report_tab j t = ([text], ok tt)
                       /\ nth_error lines j = Some text).
Proof.
  intros Htabs Hk Hnth Hpre Hfail.
  assert (Hlt : (k < length ts)%nat) by (apply nth_error_Some; congruence).
  destruct (tab_loop_completes _ Hpre 0%nat) as (lines & Hloop & Hlen & Hshape & Hlines).
  exists lines.
  assert (Hdone : raised (for_enumerate report_tab 0 (firstn k ts)) = None)
    by (rewrite Hloop; reflexivity).
  destruct (for_enumerate_completes report_tab (firstn k ts) 0 Hdone) as (Hout & Hall).
  rewrite Hloop in Hout. cbn [output fst] in Hout.
  assert (Hfive : for_enumerate report_tab 0 (firstn 5 ts) = (lines, raise e)).
  { rewrite (for_enumerate_first_failure report_tab (firstn 5 ts) 0 k tab e).
    - rewrite firstn_firstn, Nat.min_l by lia.
      rewrite <- Hout, (report_tab_raises tab e Hfail).
      cbn [output fst]. rewrite app_nil_r. reflexivity.
    - rewrite nth_error_firstn.
      destruct (Nat.ltb_spec k 5) as [_|?]; [exact Hnth|lia].
    - rewrite firstn_firstn, Nat.min_l by lia. exact Hall.
    - rewrite (report_tab_raises tab e Hfail). reflexivity. }
  split; [apply (report_window_tabs_raise i d ts lines e Htabs Hfive)|].
  split; [transitivity (length (firstn k ts)); [exact Hlen|rewrite length_firstn; lia]|].
  split; [exact Hshape|].
  intros j t Hj Hjth.
  apply (Hlines j t).
  rewrite nth_error_firstn.
  destruct (Nat.ltb_spec j k) as [_|?]; [exact Hjth|lia].
Qed.

Lemma report_tabs_lines (tabs : value) :
  Forall (fun l => is_tab_text l \/ exists n, l = total_line n) (output (report_tabs tabs)).
Proof.
  assert (Hloop : forall shown n,
             Forall (fun l => is_tab_text l \/ exists n, l = total_line n)
               (output (bind (for_enumerate report_tab 0 shown)
                          (fun _ => bind (lift (ok n)) (fun n => print (total_line n)))))).
  { intros shown n.
    pose proof (tab_loop_lines shown 0) as Hlines.
    destruct (for_enumerate report_tab 0 shown) as [lines [e|[]]];
      cbn [bind lift ok output fst app] in *;
      rewrite ?(print_accepted _ (accepts_total_line n));
      cbn [ok output fst app].
    - eapply Forall_impl; [|exact Hlines]. intros l Hl. left. exact Hl.
    - apply Forall_app. split.
      + eapply Forall_impl; [|exact Hlines]. intros l Hl. left. exact Hl.
      + constructor; [right; exists n; reflexivity|constructor]. }
  unfold report_tabs.
  destruct tabs as [| | | |s|ts|d]; try (constructor; fail).
  - cbn [py_slice_to]. rewrite bind_lift_ok.
    cbn [py_iter]. rewrite bind_lift_ok. apply Hloop.
  - cbn [py_slice_to]. rewrite bind_lift_ok.
    cbn [py_iter]. rewrite bind_lift_ok. apply Hloop.
Qed.

Lemma report_window_one_header (i : nat) (win : value) :
  filter is_window_header (output (report_window i win)) = [window_header i].
Proof.
  destruct win as [| | | | | |d];
    try (rewrite report_window_not_dict by reflexivity; reflexivity).
  rewrite report_window_split. cbn [output fst filter].
  change (is_window_header (window_header i)) with true.
  change (is_window_header (groups_line _)) with false.
  change (is_window_header []) with false. cbv iota.
  rewrite filter_none; [reflexivity|].
  eapply Forall_impl; [|apply report_tabs_lines].
  intros l [Hl|(n & ->)]; [apply (tab_text_classes l Hl)|reflexivity].
Qed.

Lemma report_of_windows (d : list (str * value)) (ws : list value) :
  dict_get d (lit "windows") (VList []) = VList ws ->
  report (VDict d) = for_enumerate report_window 0 ws.
Proof.
  intros Hwins.
  unfold report. cbn [py_get]. rewrite Hwins, bind_lift_ok.
  cbn [py_iter]. rewrite bind_lift_ok. reflexivity.
Qed.

Lemma enumerate_length {A} (xs : list A) :
  forall start, length (enumerate start xs) = length xs.
Proof.
  induction xs as [|x rest IH]; intros start; [reflexivity|].
  cbn [enumerate length]. rewrite IH. reflexivity.
Qed.

(** X8: when window [k] is the first to raise, the output is the whole
    blocks of the windows before it followed by what window [k] had
    printed, and the run ends with that window's exception; the delimiter
    lines printed are those of positions 0 to [k], so the last delimiter
    names the window that failed. *)
Theorem first_failing_window (d : list (str * value)) (ws : list value)
        (k : nat) (win : value) (e : exn) :
  dict_get d (lit "windows") (VList []) = VList ws ->
  nth_error ws k = Some win ->
  Forall (fun p => raised (report_window (fst p) (snd p)) = None)
    (enumerate 0 (firstn k ws)) ->
  raised (report_window k win) = Some e ->
  report (VDict d)
  = (flat_map (fun p => output (report_window (fst p) (snd p))) (enumerate 0 (firstn k ws))
     ++ output (report_window k win), raise e)
  /\ filter is_window_header (output (report (VDict d)))
     = map window_header (seq 0 (S k)).
Proof.
  intros Hwins Hnth Hpre Hfail.
  assert (Hlt : (k < length ws)%nat) by (apply nth_error_Some; congruence).
  assert (Hrun : report (VDict d)
                 = (flat_map (fun p => output (report_window (fst p) (snd p)))
                      (enumerate 0 (firstn k ws))
                    ++ output (report_window k win), raise e)).
  { rewrite (report_of_windows d ws Hwins).
    apply (for_enumerate_first_failure report_window ws 0 k win e Hnth Hpre Hfail). }
  split; [exact Hrun|].
  rewrite Hrun. cbn [output fst].
  rewrite filter_app, (window_loop_headers (firstn k ws) 0 Hpre).
  rewrite report_window_one_header, length_firstn, Nat.min_l by lia.
  rewrite seq_S, map_app. reflexivity.
Qed.

(** *** What the output is made of *)

Lemma for_enumerate_output_forall {A} (P : str -> Prop) (body : nat -> A -> Py unit)
      (xs : list A) :
  (forall i x, Forall P (output (body i x))) ->
  forall start, Forall P (output (for_enumerate body start xs)).
Proof.
  intros Hbody.
  induction xs as [|x rest IH]; intros start; [constructor|].
  cbn [for_enumerate].
  pose proof (Hbody start x) as Hx. specialize (IH (S start)).
  destruct (body start x) as [out [e|[]]]; cbn [bind output fst] in *; [exact Hx|].
  destruct (for_enumerate body (S start) rest) as [out' r]. cbn [fst] in *.
  apply Forall_app. split; assumption.
Qed.

Lemma report_window_lines (i : nat) (win : value) :
  Forall is_report_line (output (report_window i win)).
Proof.
  assert (Hhead : is_report_line (window_header i)) by (left; exists i; reflexivity).
  destruct win as [| | | | | |d];
    try (rewrite report_window_not_dict by reflexivity;
         constructor; [exact Hhead|constructor]).
  rewrite report_window_split. cbn [output fst].
  constructor; [exact Hhead|].
  constructor; [right; left; eexists; reflexivity|].
  constructor; [right; right; left; reflexivity|].
  eapply Forall_impl; [|apply report_tabs_lines].
  intros l [Hl|Hl]; right; right; right; [left|right]; exact Hl.
Qed.

(** X9: whatever the input, every text the script prints is of one of
    five kinds: a window delimiter, a groups line, the blank separator, a
    tab line or a total line. *)
Theorem only_report_lines (data : bytes) :
  Forall is_report_line (output (script data)).
Proof.
  unfold script.
  destruct (frame_decode data) as [e|raw]; [constructor|].
  rewrite bind_lift_ok.
  destruct (json_loads raw) as [e|session]; [constructor|].
  rewrite bind_lift_ok.
  unfold report.
  destruct session as [| | | | | |d]; try (constructor; fail).
  cbn [py_get]. rewrite bind_lift_ok.
  destruct (py_iter (dict_get d (lit "windows") (VList []))) as [e|wins];
    [constructor|].
  rewrite bind_lift_ok.
  apply for_enumerate_output_forall. intros i win. apply report_window_lines.
Qed.

(** *** Lines 17 and 18: tabs of the wrong shape *)

Lemma report_tab_entry_raises (j : nat) (d : list (str * value)) (e : exn) :
  active_entry (VDict d) = raise e ->
  report_tab j (VDict d) = ([], raise e).
Proof.
  intros H. unfold report_tab. rewrite H. reflexivity.
Qed.

Lemma report_tab_url_raises (j : nat) (d : list (str * value)) (entry : value) (e : exn) :
  active_entry (VDict d) = ok entry ->
  url_field entry = raise e ->
  report_tab j (VDict d) = ([], raise e).
Proof.
  intros Hentry Hurl.
  unfold report_tab. rewrite Hentry, bind_lift_ok.
  unfold tab_line. rewrite group_field_of_dict. cbn [rbind ok].
  rewrite Hurl. reflexivity.
Qed.

(** X10: every falsy [entries] value (null, false, 0, 0.0, the empty
    string, list or mapping) is treated like a missing one: the empty
    placeholder entry is used, [index] is not looked at, and the url
    printed is empty. *)
Theorem falsy_entries_use_placeholder (j : nat) (d : list (str * value)) (entries : value) :
  lookup (lit "entries") d = Some entries ->
  truthy entries = false ->
  active_entry (VDict d) = ok (VDict [])
  /\ report_tab j (VDict d)
     = ([lit "Tab " ++ dec_nat j ++ lit ": group=" ++ repr (group_or_missing d)
         ++ lit ", url="], ok tt).
Proof.
  intros Hentries Hfalsy.
  assert (Hentry : active_entry (VDict d) = ok (VDict [])).
  { unfold active_entry, py_get, dict_get. rewrite Hentries.
    cbn [rbind ok]. rewrite Hfalsy. reflexivity. }
  split; [exact Hentry|].
  rewrite (report_tab_printed j d (VDict []) [] Hentry eq_refl eq_refl).
  unfold tab_text. rewrite app_nil_r. reflexivity.
Qed.

(** X11: when the active entry is a mapping without a [url] key, the tab
    line is printed with an empty url. *)
Theorem missing_url_prints_empty (j : nat) (d e : list (str * value)) :
  active_entry (VDict d) = ok (VDict e) ->
  lookup (lit "url") e = None ->
  report_tab j (VDict d)
  = ([lit "Tab " ++ dec_nat j ++ lit ": group=" ++ repr (group_or_missing d)
      ++ lit ", url="], ok tt).
Proof.
  intros Hentry Hurl.
  rewrite (report_tab_printed j d (VDict e) [] Hentry (url_field_absent e Hurl) eq_refl).
  unfold tab_text. rewrite app_nil_r. reflexivity.
Qed.

(** X12: a [url] that is not a string is not converted: null, a boolean
    or a number cannot be sliced and raises TypeError, a mapping raises
    the exception of slicing a dict, and in both cases the tab prints
    nothing; a list is cut to its first 80 items and printed as its
    [repr]. *)
Theorem non_string_url (j : nat) (d e : list (str * value)) (url : value) :
  active_entry (VDict d) = ok (VDict e) ->
  lookup (lit "url") e = Some url ->
  (is_container url = false -> report_tab j (VDict d) = ([], raise TypeError))
  /\ (is_dict url = true -> report_tab j (VDict d) = ([], raise dict_slice_exn))
  /\ (forall l, url = VList l ->
        report_tab j (VDict d)
        = ([lit "Tab " ++ dec_nat j ++ lit ": group=" ++ repr (group_or_missing d)
            ++ lit ", url=" ++ repr (VList (firstn 80 l))], ok tt)).
Proof.
  intros Hentry Hurl.
  assert (Hfield : url_field (VDict e) = (u80 <-- py_slice_to 80 url ;; ok (py_format u80))).
  { unfold url_field, py_get, dict_get. rewrite Hurl. reflexivity. }
  split; [|split].
  - intros Hkind. apply (report_tab_url_raises j d (VDict e) _ Hentry).
    rewrite Hfield. destruct url; try reflexivity; discriminate Hkind.
  - intros Hkind. apply (report_tab_url_raises j d (VDict e) _ Hentry).
    rewrite Hfield. destruct url; try reflexivity; discriminate Hkind.
  - intros l ->.
    apply (report_tab_printed j d (VDict e) (repr (VList (firstn 80 l))) Hentry).
    + rewrite Hfield. reflexivity.
    + apply accepts_repr.
Qed.

(** X13: when the selected entry is not a mapping (an item of [entries]
    that is a number, a string, a list or null), the [url] lookup raises
    AttributeError and the tab prints nothing. *)
Theorem non_mapping_entry_raises (j : nat) (d : list (str * value)) (entry : value) :
  active_entry (VDict d) = ok entry ->
  is_dict entry = false ->
  report_tab j (VDict d) = ([], raise AttributeError).
Proof.
  intros Hentry Hkind.
  apply (report_tab_url_raises j d entry _ Hentry).
  destruct entry; try reflexivity. discriminate Hkind.
Qed.

(** X14: with a non-empty [entries] list, an [index] that is neither an
    integer nor a boolean (null, a float, a string, a list, a mapping)
    raises TypeError, and the tab prints nothing. *)
Theorem non_integer_index_raises (j : nat) (d : list (str * value))
        (es : list value) (index : value) :
  lookup (lit "entries") d = Some (VList es) ->
  es <> [] ->
  lookup (lit "index") d = Some index ->
  is_int_like index = false ->
  active_entry (VDict d) = raise TypeError
  /\ report_tab j (VDict d) = ([], raise TypeError).
Proof.
  intros Hentries Hne Hindex Hkind.
  assert (Hentry : active_entry (VDict d) = raise TypeError).
  { rewrite (active_entry_of_list d es Hentries Hne), Hindex.
    destruct index; try reflexivity; discriminate Hkind. }
  split; [exact Hentry|].
  apply report_tab_entry_raises, Hentry.
Qed.

(** X15: a boolean [index] counts as 0 or 1: [true] selects the first
    entry and [false], like 0, the last one. *)
Theorem boolean_index_selects (d : list (str * value)) (e0 : value) (rest : list value)
        (b : bool) :
  lookup (lit "entries") d = Some (VList (e0 :: rest)) ->
  lookup (lit "index") d = Some (VBool b) ->
  active_entry (VDict d) = ok (if b then e0 else last (e0 :: rest) VNone).
Proof.
  intros Hentries Hindex.
  rewrite (active_entry_of_list d (e0 :: rest) Hentries) by discriminate.
  rewrite Hindex.
  cbn [py_sub_int rbind ok py_getitem as_index].
  destruct b.
  - reflexivity.
  - change (0 - 1) with (-1). apply seq_index_minus_one. discriminate.
Qed.

(** X16: when [entries] is truthy but not a list and [index] is an
    integer, the tab never prints: a mapping has no integer key
    (KeyError), a number or boolean cannot be subscripted (TypeError), and
    a string yields a character, which has no [.get] (AttributeError), or
    IndexError when the index is outside the string. *)
Theorem non_list_entries_raise (j : nat) (d : list (str * value)) (entries : value) (n : Z) :
  lookup (lit "entries") d = Some entries ->
  truthy entries = true ->
  (forall es, entries <> VList es) ->
  lookup (lit "index") d = Some (VInt n) ->
  report_tab j (VDict d) = ([], raise (odd_entries_exn entries n)).
Proof.
  intros Hentries Htruthy Hlist Hindex.
  assert (Hsel : active_entry (VDict d) = py_getitem entries (VInt (n - 1))).
  { unfold active_entry, py_get, py_getitem at 1 2, dict_get.
    rewrite Hentries. cbn [rbind ok]. rewrite Htruthy, Hindex. reflexivity. }
  destruct entries as [|b|z|f|s|es|de].
  - discriminate Htruthy.
  - apply report_tab_entry_raises. rewrite Hsel. reflexivity.
  - apply report_tab_entry_raises. rewrite Hsel. reflexivity.
  - apply report_tab_entry_raises. rewrite Hsel. reflexivity.
  - cbn [odd_entries_exn py_getitem as_index] in *.
    destruct (Z.ltb_spec (n - 1) (- Z.of_nat (length s))) as [Hlow|Hlow]; cbn [orb].
    { apply report_tab_entry_raises. rewrite Hsel.
      rewrite seq_index_outside by lia. reflexivity. }
    destruct (Z.leb_spec (Z.of_nat (length s)) (n - 1)) as [Hhigh|Hhigh].
    { apply report_tab_entry_raises. rewrite Hsel.
      rewrite seq_index_outside by lia. reflexivity. }
    assert (Hc : exists c, seq_index s (n - 1) = ok c).
    { destruct (Z.ltb_spec (n - 1) 0) as [Hneg|Hpos].
      - destruct (seq_index_backward s (n - 1)) as (c & _ & Hc); [lia|].
        exists c. exact Hc.
      - destruct (seq_index_forward s (n - 1)) as (c & _ & Hc); [lia|].
        exists c. exact Hc. }
    destruct Hc as (c & Hc).
    apply (report_tab_url_raises j d (VStr [c])); [|reflexivity].
    rewrite Hsel, Hc. reflexivity.
  - contradiction (Hlist es). reflexivity.
  - apply report_tab_entry_raises. rewrite Hsel. reflexivity.
Qed.

(** *** The groups line and whole sessions *)

(** X17: the groups line of a window is the text [Groups: ] followed by
    the first 2000 characters of the indented rendering of [groups] (of
    the empty list when the key is absent): character [k] of the line past
    the eight of the prefix is character [k] of the rendering for every
    [k] below 2000, the line has [8 + min(2000, length)] characters, so a
    longer rendering is cut after its character 2000 and a rendering of at
    most 2000 characters is printed whole. *)
Theorem groups_line_bounded (i : nat) (d : list (str * value)) :
  exists line rest r,
    report_window i (VDict d) = (window_header i :: line :: [] :: rest, r)
    /\ line = lit "Groups: "
              ++ firstn 2000 (json_dumps_indent2 (dict_get d (lit "groups") (VList [])))
    /\ length line
       = (8 + Nat.min 2000
                (length (json_dumps_indent2 (dict_get d (lit "groups") (VList [])))))%nat
    /\ (forall k, (k < 2000)%nat ->
          nth_error line (8 + k)
          = nth_error (json_dumps_indent2 (dict_get d (lit "groups") (VList []))) k)
    /\ (forall k, (2000 <= k)%nat -> nth_error line (8 + k) = None)
    /\ ((length (json_dumps_indent2 (dict_get d (lit "groups") (VList []))) <= 2000)%nat ->
        line = lit "Groups: " ++ json_dumps_indent2 (dict_get d (lit "groups") (VList []))).
Proof.
  destruct (report_window_start i d) as (rest & r & Hwin).
  exists (groups_line (dict_get d (lit "groups") (VList []))), rest, r.
  split; [exact Hwin|].
  unfold groups_line.
  set (rendering := json_dumps_indent2 (dict_get d (lit "groups") (VList []))).
  assert (Hprefix : length (lit "Groups: ") = 8%nat) by reflexivity.
  split; [reflexivity|].
  split; [rewrite length_app, length_firstn, Hprefix; reflexivity|].
  split; [|split].
  - intros k Hk.
    rewrite nth_error_app2 by (rewrite Hprefix; lia).
    rewrite Hprefix.
    replace (8 + k - 8)%nat with k by lia.
    rewrite nth_error_firstn.
    destruct (Nat.ltb_spec k 2000) as [_|?]; [reflexivity|lia].
  - intros k Hk.
    apply nth_error_None.
    rewrite length_app, length_firstn, Hprefix. lia.
  - intros Hshort. rewrite firstn_all2 by exact Hshort. reflexivity.
Qed.

(** X18: a session that follows the data model (mappings where mappings
    are expected, [tabs] and [entries] lists, [1 <= index <= len(entries)]
    wherever [entries] is non-empty, string urls whose first 80 characters
    standard output can encode, that is, hold no lone surrogate) is
    reported without any exception, with exactly one delimiter line per
    window, numbered in document order. *)
Theorem conforming_session_is_reported (data raw : bytes) (d : list (str * value))
        (ws : list value) :
  frame_decode data = ok raw ->
  json_loads raw = ok (VDict d) ->
  dict_get d (lit "windows") (VList []) = VList ws ->
  session_conforms (VDict d) = true ->
  raised (script data) = None
  /\ filter is_window_header (output (script data))
     = map window_header (seq 0 (length ws)).
Proof.
  intros Hraw Hdoc Hwins Hconf.
  assert (Hscript : script data = for_enumerate report_window 0 ws).
  { unfold script. rewrite Hraw, bind_lift_ok, Hdoc, bind_lift_ok.
    apply report_of_windows, Hwins. }
  assert (Hdone : raised (script data) = None).
  { unfold script. rewrite Hraw, bind_lift_ok, Hdoc, bind_lift_ok.
    apply session_conforms_completes, Hconf. }
  split; [exact Hdone|].
  rewrite Hscript in *.
  destruct (for_enumerate_completes report_window ws 0 Hdone) as (Hout & Hall).
  rewrite Hout. apply window_loop_headers, Hall.
Qed.

End Extensions.

(** ** Concrete runs of the further properties *)

Lemma frame_layout_witness :
  length frame_magic = 8%nat
  /\ frame_header frame_full = ok ([x10; x20; x30], 16909060).
Proof.
  assert (Hlen : length frame_magic = 8%nat) by reflexivity.
  split; [exact Hlen|].
  exact (proj1 (frame_layout (LIB := stored_libraries session_good)
                  frame_magic [x10; x20; x30] x04 x03 x02 x01 Hlen)).
Defined.

Lemma failed_decode_prints_nothing_witness :
  (frame_decode (LIB := failing_decompressor) frame_a = raise LZ4BlockError
   \/ exists raw, frame_decode (LIB := failing_decompressor) frame_a = ok raw
                  /\ json_loads (Libraries := failing_decompressor) raw = raise LZ4BlockError)
  /\ script (LIB := failing_decompressor) frame_a = ([], raise LZ4BlockError)
  /\ script (LIB := failing_parser) frame_a = ([], raise ValueError).
Proof.
  assert (H : frame_decode (LIB := failing_decompressor) frame_a = raise LZ4BlockError
              \/ exists raw, frame_decode (LIB := failing_decompressor) frame_a = ok raw
                             /\ json_loads (Libraries := failing_decompressor) raw
                                = raise LZ4BlockError)
    by (left; reflexivity).
  split; [exact H|]. split.
  - exact (failed_decode_prints_nothing (LIB := failing_decompressor)
             frame_a LZ4BlockError H).
  - apply (failed_decode_prints_nothing (LIB := failing_parser) frame_a ValueError).
    right. exists []. split; reflexivity.
Defined.

Lemma malformed_session_raises_witness :
  is_dict (VInt 3 : doc) = false
  /\ report (VInt 3 : doc) = ([], raise AttributeError)
  /\ lookup (lit "windows") ([(lit "windows", VNone)] : items) = Some VNone
  /\ is_container (VNone : doc) = false
  /\ report (VDict [(lit "windows", VNone)] : doc) = ([], raise TypeError).
Proof.
  assert (H1 : is_dict (VInt 3 : doc) = false) by reflexivity.
  assert (H2 : lookup (lit "windows") ([(lit "windows", VNone)] : items) = Some VNone)
    by reflexivity.
  assert (H3 : is_container (VNone : doc) = false) by reflexivity.
  split; [exact H1|].
  split; [exact (proj1 (malformed_session_raises (VInt 3 : doc)) H1)|].
  split; [exact H2|]. split; [exact H3|].
  exact (proj2 (malformed_session_raises (VDict [(lit "windows", VNone)] : doc))
           _ _ eq_refl H2 H3).
Defined.

Lemma malformed_window_raises_witness :
  is_dict (VStr (lit "w") : doc) = false
  /\ report_window 4 (VStr (lit "w") : doc) = ([lit "=== Window 4 ==="], raise AttributeError).
Proof.
  assert (H : is_dict (VStr (lit "w") : doc) = false) by reflexivity.
  split; [exact H|].
  exact (malformed_window_raises 4 (VStr (lit "w") : doc) H).
Defined.

Lemma malformed_tabs_raise_witness :
  lookup (lit "tabs") window_number_tabs_items = Some (VInt 3)
  /\ (forall ts, (VInt 3 : doc) <> VList ts)
  /\ (VInt 3 : doc) <> VStr []
  /\ report_window 0 (VDict window_number_tabs_items)
     = ([lit "=== Window 0 ==="; lit "Groups: []"; []], raise TypeError).
Proof.
  assert (H1 : lookup (lit "tabs") window_number_tabs_items = Some (VInt 3)) by reflexivity.
  assert (H2 : forall ts, (VInt 3 : doc) <> VList ts) by (intros ts; discriminate).
  assert (H3 : (VInt 3 : doc) <> VStr []) by discriminate.
  split; [exact H1|]. split; [exact H2|]. split; [exact H3|].
  exact (malformed_tabs_raise 0 window_number_tabs_items (VInt 3) H1 H2 H3).
Defined.

Lemma later_tabs_never_read_witness :
  dict_get window_seven_a_items (lit "groups") (VList [])
  = dict_get window_seven_b_items (lit "groups") (VList [])
  /\ firstn 5 (repeat (tab_at 2) 5 ++ [tab_at 5; VNone])
     = firstn 5 (repeat (tab_at 2) 5 ++ [VInt 1; tab_at 1])
  /\ report_window 0 (VDict window_seven_a_items)
     = report_window 0 (VDict window_seven_b_items).
Proof.
  assert (Hg : dict_get window_seven_a_items (lit "groups") (VList [])
               = dict_get window_seven_b_items (lit "groups") (VList [])) by reflexivity.
  assert (Hf : firstn 5 (repeat (tab_at 2) 5 ++ [tab_at 5; VNone])
               = firstn 5 (repeat (tab_at 2) 5 ++ [VInt 1; tab_at 1])) by reflexivity.
  split; [exact Hg|]. split; [exact Hf|].
  exact (later_tabs_never_read 0 window_seven_a_items window_seven_b_items
           _ _ Hg eq_refl eq_refl Hf eq_refl).
Defined.

Lemma first_failing_tab_witness :
  dict_get window_mixed_items (lit "tabs") (VList []) = VList mixed_tabs
  /\ (2 < 5)%nat
  /\ nth_error mixed_tabs 2 = Some (tab_at 5)
  /\ Forall tab_completes (firstn 2 mixed_tabs)
  /\ raised (report_tab 0 (tab_at 5)) = Some IndexError
  /\ exists lines,
       report_window 0 (VDict window_mixed_items)
       = (window_header 0 :: groups_line (RT := plain_runtime) (VList []) :: [] :: lines,
          raise IndexError)
       /\ length lines = 2%nat.
Proof.
  assert (H1 : dict_get window_mixed_items (lit "tabs") (VList []) = VList mixed_tabs)
    by reflexivity.
  assert (H2 : (2 < 5)%nat) by lia.
  assert (H3 : nth_error mixed_tabs 2 = Some (tab_at 5)) by reflexivity.
  assert (H4 : Forall tab_completes (firstn 2 mixed_tabs)) by (repeat constructor).
  assert (H5 : raised (report_tab 0 (tab_at 5)) = Some IndexError) by reflexivity.
  split; [exact H1|]. split; [exact H2|]. split; [exact H3|].
  split; [exact H4|]. split; [exact H5|].
  destruct (first_failing_tab 0 window_mixed_items mixed_tabs 2 (tab_at 5) IndexError
              H1 H2 H3 H4 H5) as (lines & Hwin & Hlen & _).
  exists lines. split; [exact Hwin|exact Hlen].
Defined.

Lemma first_failing_window_witness :
  dict_get session_late_failure_items (lit "windows") (VList []) = VList windows_late_failure
  /\ nth_error windows_late_failure 1 = Some window_bad_tab
  /\ Forall (fun p => raised (report_window (fst p) (snd p)) = None)
       (enumerate 0 (firstn 1 windows_late_failure))
  /\ raised (report_window 1 window_bad_tab) = Some IndexError
  /\ filter is_window_header (output (report (VDict session_late_failure_items)))
     = [lit "=== Window 0 ==="; lit "=== Window 1 ==="].
Proof.
  assert (H1 : dict_get session_late_failure_items (lit "windows") (VList [])
               = VList windows_late_failure) by reflexivity.
  assert (H2 : nth_error windows_late_failure 1 = Some window_bad_tab) by reflexivity.
  assert (H3 : Forall (fun p => raised (report_window (fst p) (snd p)) = None)
                 (enumerate 0 (firstn 1 windows_late_failure)))
    by (repeat constructor).
  assert (H4 : raised (report_window 1 window_bad_tab) = Some IndexError) by reflexivity.
  split; [exact H1|]. split; [exact H2|]. split; [exact H3|]. split; [exact H4|].
  exact (proj2 (first_failing_window session_late_failure_items windows_late_failure
                  1 window_bad_tab IndexError H1 H2 H3 H4)).
Defined.

Lemma falsy_entries_use_placeholder_witness :
  lookup (lit "entries") tab_zero_entries_items = Some (VInt 0)
  /\ truthy (VInt 0 : doc) = false
  /\ report_tab 2 (VDict tab_zero_entries_items) = ([lit "Tab 2: group=None, url="], ok tt).
Proof.
  assert (H1 : lookup (lit "entries") tab_zero_entries_items = Some (VInt 0)) by reflexivity.
  assert (H2 : truthy (VInt 0 : doc) = false) by reflexivity.
  split; [exact H1|]. split; [exact H2|].
  exact (proj2 (falsy_entries_use_placeholder 2 tab_zero_entries_items (VInt 0) H1 H2)).
Defined.

Lemma missing_url_prints_empty_witness :
  active_entry (VDict tab_no_url_items) = ok (VDict no_url_entry_items)
  /\ lookup (lit "url") no_url_entry_items = None
  /\ report_tab 0 (VDict tab_no_url_items) = ([lit "Tab 0: group='MISSING', url="], ok tt).
Proof.
  assert (H1 : active_entry (VDict tab_no_url_items) = ok (VDict no_url_entry_items))
    by reflexivity.
  assert (H2 : lookup (lit "url") no_url_entry_items = None) by reflexivity.
  split; [exact H1|]. split; [exact H2|].
  exact (missing_url_prints_empty 0 tab_no_url_items no_url_entry_items H1 H2).
Defined.

Lemma non_string_url_witness :
  active_entry (VDict tab_number_url_items) = ok (VDict number_url_entry_items)
  /\ lookup (lit "url") number_url_entry_items = Some (VInt 7)
  /\ is_container (VInt 7 : doc) = false
  /\ report_tab 0 (VDict tab_number_url_items) = ([], raise TypeError).
Proof.
  assert (H1 : active_entry (VDict tab_number_url_items) = ok (VDict number_url_entry_items))
    by reflexivity.
  assert (H2 : lookup (lit "url") number_url_entry_items = Some (VInt 7)) by reflexivity.
  assert (H3 : is_container (VInt 7 : doc) = false) by reflexivity.
  split; [exact H1|]. split; [exact H2|]. split; [exact H3|].
  exact (proj1 (non_string_url 0 tab_number_url_items number_url_entry_items (VInt 7)
                  H1 H2) H3).
Defined.

Lemma non_mapping_entry_raises_witness :
  active_entry (VDict tab_text_entries_items) = ok (VStr (lit "a"))
  /\ is_dict (VStr (lit "a") : doc) = false
  /\ report_tab 0 (VDict tab_text_entries_items) = ([], raise AttributeError).
Proof.
  assert (H1 : active_entry (VDict tab_text_entries_items) = ok (VStr (lit "a")))
    by reflexivity.
  assert (H2 : is_dict (VStr (lit "a") : doc) = false) by reflexivity.
  split; [exact H1|]. split; [exact H2|].
  exact (non_mapping_entry_raises 0 tab_text_entries_items (VStr (lit "a")) H1 H2).
Defined.

Lemma non_integer_index_raises_witness :
  lookup (lit "entries") tab_text_index_items = Some (VList history)
  /\ history <> []
  /\ lookup (lit "index") tab_text_index_items = Some (VStr (lit "1"))
  /\ is_int_like (VStr (lit "1") : doc) = false
  /\ report_tab 0 (VDict tab_text_index_items) = ([], raise TypeError).
Proof.
  assert (H1 : lookup (lit "entries") tab_text_index_items = Some (VList history))
    by reflexivity.
  assert (H2 : history <> []) by discriminate.
  assert (H3 : lookup (lit "index") tab_text_index_items = Some (VStr (lit "1")))
    by reflexivity.
  assert (H4 : is_int_like (VStr (lit "1") : doc) = false) by reflexivity.
  split; [exact H1|]. split; [exact H2|]. split; [exact H3|]. split; [exact H4|].
  exact (proj2 (non_integer_index_raises 0 tab_text_index_items history (VStr (lit "1"))
                  H1 H2 H3 H4)).
Defined.

Lemma boolean_index_selects_witness :
  lookup (lit "entries") tab_true_index_items = Some (VList (entry_a :: [entry_b]))
  /\ lookup (lit "index") tab_true_index_items = Some (VBool true)
  /\ active_entry (VDict tab_true_index_items) = ok entry_a.
Proof.
  assert (H1 : lookup (lit "entries") tab_true_index_items
               = Some (VList (entry_a :: [entry_b]))) by reflexivity.
  assert (H2 : lookup (lit "index") tab_true_index_items = Some (VBool true)) by reflexivity.
  split; [exact H1|]. split; [exact H2|].
  exact (boolean_index_selects tab_true_index_items entry_a [entry_b] true H1 H2).
Defined.

Lemma non_list_entries_raise_witness :
  lookup (lit "entries") tab_text_entries_items = Some (VStr (lit "ab"))
  /\ truthy (VStr (lit "ab") : doc) = true
  /\ (forall es, (VStr (lit "ab") : doc) <> VList es)
  /\ lookup (lit "index") tab_text_entries_items = Some (VInt 1)
  /\ report_tab 0 (VDict tab_text_entries_items) = ([], raise AttributeError).
Proof.
  assert (H1 : lookup (lit "entries") tab_text_entries_items = Some (VStr (lit "ab")))
    by reflexivity.
  assert (H2 : truthy (VStr (lit "ab") : doc) = true) by reflexivity.
  assert (H3 : forall es, (VStr (lit "ab") : doc) <> VList es) by (intros es; discriminate).
  assert (H4 : lookup (lit "index") tab_text_entries_items = Some (VInt 1)) by reflexivity.
  split; [exact H1|]. split; [exact H2|]. split; [exact H3|]. split; [exact H4|].
  exact (non_list_entries_raise 0 tab_text_entries_items (VStr (lit "ab")) 1 H1 H2 H3 H4).
Defined.

(** 300 seven-digit groups render to 3302 characters; the line printed
    stops after character 2000, in the middle of item 182. *)
Lemma groups_line_bounded_witness :
  length (json_dumps_indent2 (RT := plain_runtime) (VList many_groups)) = 3302%nat
  /\ exists line rest r,
       report_window 0 (VDict window_many_groups_items)
       = (window_header 0 :: line :: [] :: rest, r)
       /\ line = lit "Groups: [" ++ concat (repeat ([10; 32; 32]%N ++ lit "1234567,") 181)
                 ++ [10; 32; 32]%N ++ lit "12345"
       /\ length line = 2008%nat
       /\ nth_error line 2007 = Some 53%N
       /\ nth_error line 2008 = None.
Proof.
  split; [vm_compute; reflexivity|].
  destruct (groups_line_bounded 0 window_many_groups_items)
    as (line & rest & r & Hwin & Hline & Hlen & Hnth & Hend & _).
  exists line, rest, r.
  split; [exact Hwin|].
  split; [rewrite Hline; vm_compute; reflexivity|].
  split; [rewrite Hlen; vm_compute; reflexivity|].
  split.
  - assert (Hk : (1999 < 2000)%nat) by lia.
    etransitivity; [exact (Hnth 1999%nat Hk)|vm_compute; reflexivity].
  - assert (Hk : (2000 <= 2000)%nat) by lia.
    exact (Hend 2000%nat Hk).
Defined.

(** The session [{"windows": [seven, {}]}] follows the data model; a tab
    whose url holds a lone surrogate does not, and stops the run. *)
Lemma conforming_session_is_reported_witness :
  frame_decode (LIB := stored_libraries session_good) frame_a = ok []
  /\ json_loads (Libraries := stored_libraries session_good) [] = ok (VDict session_good_items)
  /\ dict_get session_good_items (lit "windows") (VList []) = VList windows_good
  /\ session_conforms (VDict session_good_items) = true
  /\ raised (script (LIB := stored_libraries session_good) frame_a) = None
  /\ filter is_window_header (output (script (LIB := stored_libraries session_good) frame_a))
     = [lit "=== Window 0 ==="; lit "=== Window 1 ==="].
Proof.
  assert (H1 : frame_decode (LIB := stored_libraries session_good) frame_a = ok [])
    by reflexivity.
  assert (H2 : json_loads (Libraries := stored_libraries session_good) []
               = ok (VDict session_good_items)) by reflexivity.
  assert (H3 : dict_get session_good_items (lit "windows") (VList []) = VList windows_good)
    by reflexivity.
  assert (H4 : session_conforms (VDict session_good_items) = true) by reflexivity.
  split; [exact H1|]. split; [exact H2|]. split; [exact H3|]. split; [exact H4|].
  exact (conforming_session_is_reported (LIB := stored_libraries session_good)
           frame_a [] session_good_items windows_good H1 H2 H3 H4).
Defined.

(** A session whose only tab has a url with a lone surrogate: the window
    prints its first three lines, then line 18 raises UnicodeEncodeError. *)
Lemma surrogate_url_stops_the_run :
  tab_conforms (VDict tab_surrogate_url_items) = false
  /\ report_tab 0 (VDict tab_surrogate_url_items) = ([], raise UnicodeEncodeError)
  /\ report_window 0 (VDict [(lit "tabs", VList [VDict tab_surrogate_url_items])])
     = ([lit "=== Window 0 ==="; lit "Groups: []"; []], raise UnicodeEncodeError).
Proof. split; [|split]; reflexivity. Qed.
